(** * Raport Otomatis API: the grade computation engine

    A shallow embedding of [src/database.py] and of the handlers
    [set_weight] and [generate_report] of [src/main.py], with the
    properties of the weight resolver, the score aggregator and the
    grade calculator.

    Modelling conventions.
    - A Python [dict] is a [gmap string value]; a BSON value is a
      [value].  A number is a Python [float], an IEEE 754 binary64
      value with its rounding, its signed zeros, its infinities and its
      NaN, as every number this application writes is; the int literals
      of the source (0, 20, 30, 70, 100) are the doubles of the same
      value, which is what they become in every operation that meets a
      [float].
    - A MongoDB collection is the list of its documents in natural
      (insertion) order; every stored document carries an [_id] that is
      an [ObjectId], as every document written by this application does.
    - A handler is a computation in a state-and-exception monad over the
      module-level [db] of [database.py], which is [None] when the client
      could not be built.  The store is assumed reachable: the driver's
      own network errors are not modelled.
    - Clock readings ([datetime.utcnow()]) and the [ObjectId] the driver
      generates for an inserted document are inputs of the handlers. *)

From Stdlib Require Import Ascii String ZArith QArith Qround Qabs Qpower.
From Stdlib Require Import Floats.SpecFloat.
From stdpp Require Import gmap strings list fin_maps.
From Stdlib Require Import Lqa.

Open Scope string_scope.

(** ** Python floats *)

(** A [float] is a binary64 number: 53 bits of precision, binary
    exponents below 1024, every operation rounded to the nearest double,
    a tie going to the even one. *)
Abbreviation float := spec_float.

Definition prec : Z := 53.
Definition emax : Z := 1024.

(** [x + y], [x * y], [x / y] for a non-zero [y] *)
Definition float_add : float -> float -> float := SFadd prec emax.
Definition float_mul : float -> float -> float := SFmul prec emax.
Definition float_truediv : float -> float -> float := SFdiv prec emax.

(** [x == y], [x <= y], [x < y]; each is [False] when a side is NaN. *)
Definition float_eq : float -> float -> bool := SFeqb.
Definition float_le : float -> float -> bool := SFleb.
Definition float_lt : float -> float -> bool := SFltb.

(** [float(n)] for an int [n]: the nearest double. *)
Definition float_of_int (n : Z) : float := binary_normalize prec emax n 0 false.

(** The literal [0.0]. *)
Definition float_zero : float := S754_zero false.

(** [n / d] for an int [n] and a positive int [d]: the double nearest
    the quotient. *)
Definition int_truediv (n : Z) (d : positive) : float :=
  match n with
  | Z0 => S754_zero false
  | Zpos p =>
      let '(q, e, l) := SFdiv_core_binary prec emax (Zpos p) 0 (Zpos d) 0 in
      binary_round_aux prec emax false q e l
  | Zneg p =>
      let '(q, e, l) := SFdiv_core_binary prec emax (Zpos p) 0 (Zpos d) 0 in
      binary_round_aux prec emax true q e l
  end.

Declare Scope float_scope.
Delimit Scope float_scope with fl.
Infix "+" := float_add : float_scope.
Infix "*" := float_mul : float_scope.
Infix "/" := float_truediv : float_scope.
Infix "==" := float_eq (at level 70, no associativity) : float_scope.
Infix "<=" := float_le : float_scope.
Infix "<" := float_lt : float_scope.

#[global] Arguments float_add : simpl never.
#[global] Arguments float_mul : simpl never.
#[global] Arguments float_truediv : simpl never.
#[global] Arguments float_of_int : simpl never.
#[global] Arguments int_truediv : simpl never.

Definition is_finite (x : float) : bool :=
  match x with
  | S754_zero _ | S754_finite _ _ _ => true
  | _ => false
  end.

Definition is_nan (x : float) : bool :=
  match x with S754_nan => true | _ => false end.

Definition sign_of (x : float) : bool :=
  match x with
  | S754_zero s | S754_infinity s | S754_finite s _ _ => s
  | S754_nan => false
  end.

(** The number a finite double stands for. *)
Definition float_value (x : float) : Q :=
  match x with
  | S754_finite s m e =>
      let v := (inject_Z (Zpos m) * Qpower 2 e)%Q in
      if s then (- v)%Q else v
  | _ => 0%Q
  end.

(** [x.as_integer_ratio()]: the reduced fraction a finite double is
    equal to; [None] for the [OverflowError] of an infinity and the
    [ValueError] of a NaN. *)
Definition as_integer_ratio (x : float) : option (Z * positive) :=
  match x with
  | S754_zero _ => Some (0%Z, 1%positive)
  | S754_finite s m e =>
      let n := if s then Zneg m else Zpos m in
      match e with
      | Zneg k => let q := Qred (n # 2 ^ k) in Some (Qnum q, Qden q)
      | _ => Some ((n * 2 ^ e)%Z, 1%positive)
      end
  | _ => None
  end.

(** [float(q)] for a [Fraction]: numerator over denominator, in lowest
    terms, by true division. *)
Definition Fraction_float (q : Q) : float :=
  let r := Qred q in int_truediv (Qnum r) (Qden r).

(** ** Values and documents *)

(** [bson.ObjectId], represented by the lower-case hexadecimal form of
    its bytes, which is what [str] returns: 24 digits for the 12 bytes
    of a generated identifier. *)
Inductive ObjectId := Oid (hex : string).

Definition ObjectId_str (o : ObjectId) : string :=
  match o with Oid h => h end.

Definition ObjectId_eqb (a b : ObjectId) : bool :=
  String.eqb (ObjectId_str a) (ObjectId_str b).

Definition datetime := Z.

Inductive value :=
| VNone
| VStr (s : string)
| VNum (x : float)
| VOid (o : ObjectId)
| VDate (t : datetime).

Abbreviation dict := (gmap string value).

(** The literal of an int in a place that holds a number. *)
Definition num (n : Z) : value := VNum (float_of_int n).

(** Equality of a stored value with a query value.  Numbers compare by
    numeric value, and the store takes NaN to equal NaN. *)
Definition number_eqb (p q : float) : bool :=
  match SFcompare p q with
  | Some Eq => true
  | Some _ => false
  | None => is_nan p && is_nan q
  end.

Definition value_eqb (a b : value) : bool :=
  match a, b with
  | VNone, VNone => true
  | VStr s, VStr t => String.eqb s t
  | VNum p, VNum q => number_eqb p q
  | VOid o, VOid p => ObjectId_eqb o p
  | VDate t, VDate u => Z.eqb t u
  | _, _ => false
  end.

(** A stored document: its [_id] and its other fields. *)
Record document := Document { _id : ObjectId; fields : dict }.

(** The dict pymongo hands out for a stored document. *)
Definition to_dict (d : document) : dict :=
  <["_id" := VOid (_id d)]> (fields d).

(** A query document [{k1: v1, ...}]: every listed field must equal the
    given value; a [None] query value also matches a document that lacks
    the field. *)
Definition query := list (string * value).

Definition field_matches (d : dict) (kv : string * value) : bool :=
  match d !! kv.1 with
  | Some x => value_eqb x kv.2
  | None => value_eqb VNone kv.2
  end.

Definition matches (q : query) (d : document) : bool :=
  forallb (field_matches (to_dict d)) q.

(** ** The store and the handler monad *)

Abbreviation collection := (list document).
Abbreviation Store := (gmap string (list document)).

Definition DB := option Store.

Inductive Exn :=
| HTTPException (status_code : Z) (detail : string)
| RuntimeError (msg : string)
| TypeError
| ValueError
| KeyError (key : string)
| InvalidId
| DuplicateKeyError
| StatisticsError.

Definition M (A : Type) : Type := DB -> (Exn + A) * DB.

Definition ret {A} (a : A) : M A := fun db => (inr a, db).

Definition raise {A} (e : Exn) : M A := fun db => (inl e, db).

Definition bind {A B} (m : M A) (k : A -> M B) : M B :=
  fun db =>
    match m db with
    | (inr a, db') => k a db'
    | (inl e, db') => (inl e, db')
    end.

(** [try: m  except Exception: h] *)
Definition try_except {A} (m : M A) (h : Exn -> M A) : M A :=
  fun db =>
    match m db with
    | (inr a, db') => (inr a, db')
    | (inl e, db') => h e db'
    end.

Notation "x <- m ;; k" := (bind m (fun x => k))
  (at level 100, m at next level, right associativity).
Notation "m ;;; k" := (bind m (fun _ => k))
  (at level 100, right associativity).

(** The module-level [db]. *)
Definition get_db : M DB := fun db => (inr db, db).

(** [db[name]] as [main.py] writes it: subscripting [None] is a
    [TypeError]; a collection that was never written to is empty. *)
Definition coll_of (s : Store) (name : string) : collection :=
  default [] (s !! name).

Definition db_collection (name : string) : M collection :=
  fun db =>
    match db with
    | Some s => (inr (coll_of s name), db)
    | None => (inl TypeError, db)
    end.

Definition put_collection (name : string) (c : collection) : M unit :=
  fun db =>
    match db with
    | Some s => (inr tt, Some (<[name := c]> s))
    | None => (inl TypeError, db)
    end.

(** *** The driver's collection methods *)

Definition find (name : string) (q : query) : M collection :=
  c <- db_collection name ;;
  ret (List.filter (matches q) c).

Definition find_one (name : string) (q : query) : M (option document) :=
  c <- db_collection name ;;
  ret (List.find (matches q) c).

(** [{"$set": data}] on one document: the listed fields are written, the
    others and the [_id] are kept. *)
Definition set_fields (data : dict) (d : document) : document :=
  Document (_id d) (data ∪ fields d).

Fixpoint update_first (q : query) (data : dict) (c : collection) : collection :=
  match c with
  | [] => []
  | d :: c' =>
      if matches q d then set_fields data d :: c'
      else d :: update_first q data c'
  end.

Definition update_one (name : string) (q : query) (data : dict) : M unit :=
  c <- db_collection name ;;
  put_collection name (update_first q data c).

(** [insert_one(data)], where [oid] is the identifier the driver
    generates; the store refuses a second document with the same [_id]. *)
Definition insert_one (name : string) (oid : ObjectId) (data : dict) : M ObjectId :=
  c <- db_collection name ;;
  if existsb (fun d => ObjectId_eqb (_id d) oid) c
  then raise DuplicateKeyError
  else put_collection name (c ++ [Document oid data])%list ;;; ret oid.

(** ** [database.py] *)

(** [ObjectId(doc_id)] for a [str]: the string must have 24 characters
    and [bytes.fromhex] must accept it; anything else raises
    [InvalidId].  [bytes.fromhex] reads pairs of hexadecimal digits, of
    either case, and skips ASCII white space in front of a pair and at
    the end, so that a string with white space yields fewer than 12
    bytes. *)
Definition is_hex_digit (c : ascii) : bool :=
  let n := nat_of_ascii c in
  (Nat.leb 48 n && Nat.leb n 57) || (Nat.leb 97 n && Nat.leb n 102)
  || (Nat.leb 65 n && Nat.leb n 70).

Definition is_space (c : ascii) : bool :=
  let n := nat_of_ascii c in
  (Nat.leb 9 n && Nat.leb n 13) || Nat.eqb n 32.

Definition lower_hex (c : ascii) : ascii :=
  let n := nat_of_ascii c in
  if Nat.leb 65 n && Nat.leb n 70 then ascii_of_nat (n + 32) else c.

(** The bytes [bytes.fromhex] returns, as their lower-case digits. *)
Fixpoint fromhex (cs : list ascii) : option (list ascii) :=
  match cs with
  | [] => Some []
  | c :: cs' =>
      if is_space c then fromhex cs'
      else
        match cs' with
        | d :: cs'' =>
            if is_hex_digit c && is_hex_digit d
            then option_map (fun bs => lower_hex c :: lower_hex d :: bs)
                            (fromhex cs'')
            else None
        | [] => None
        end
  end.

Definition ObjectId_parse (doc_id : string) : option ObjectId :=
  let cs := list_ascii_of_string doc_id in
  if Nat.eqb (List.length cs) 24
  then option_map (fun bs => Oid (string_of_list_ascii bs)) (fromhex cs)
  else None.

Definition ObjectId_of_str (doc_id : string) : M ObjectId :=
  match ObjectId_parse doc_id with
  | Some o => ret o
  | None => raise InvalidId
  end.

(** [_to_str_id(doc)] on the dict of a stored document.  Such a dict is
    never empty and its [_id] is an [ObjectId], which is truthy, so both
    guards of the source pass: the result has the identifier as a string
    under [id] and no [_id]. *)
Definition _to_str_id (doc : document) : dict :=
  delete "_id" (<["id" := VStr (ObjectId_str (_id doc))]> (to_dict doc)).

(** [create_document(collection_name, data)]; [now] is the clock reading
    and [oid] the generated identifier. *)
Definition create_document (now : datetime) (oid : ObjectId)
    (collection_name : string) (data : dict) : M string :=
  db <- get_db ;;
  match db with
  | None => raise (RuntimeError "Database not initialized")
  | Some _ =>
      let data :=
        match data !! "created_at" with
        | None => <["created_at" := VDate now]> data
        | Some _ => data
        end in
      let data := <["updated_at" := VDate now]> data in
      inserted_id <- insert_one collection_name oid data ;;
      ret (ObjectId_str inserted_id)
  end.

(** [get_document_by_id(collection_name, doc_id)]: the [None] check on
    [db] is outside the [try]; everything raised inside it yields
    [None]. *)
Definition get_document_by_id (collection_name doc_id : string) : M (option dict) :=
  db <- get_db ;;
  match db with
  | None => raise (RuntimeError "Database not initialized")
  | Some _ =>
      try_except
        (oid <- ObjectId_of_str doc_id ;;
         doc <- find_one collection_name [("_id", VOid oid)] ;;
         ret (option_map _to_str_id doc))
        (fun _ => ret None)
  end.

(** ** Python operations on values *)

(** [d.get(k, dflt)] *)
Definition dict_get (d : dict) (k : string) (dflt : value) : value :=
  default dflt (d !! k).

(** [d[k]] *)
Definition subscript (d : dict) (k : string) : M value :=
  match d !! k with
  | Some v => ret v
  | None => raise (KeyError k)
  end.

(** [a + b]: numbers add as doubles, strings concatenate, every other
    pair of values of this model is a [TypeError]. *)
Definition py_add (a b : value) : M value :=
  match a, b with
  | VNum p, VNum q => ret (VNum (float_add p q))
  | VStr s, VStr t => ret (VStr (String.append s t))
  | _, _ => raise TypeError
  end.

(** [v == 0] for the int literal [0]. *)
Definition py_eq_zero (v : value) : bool :=
  match v with
  | VNum p => float_eq p (float_of_int 0)
  | _ => false
  end.

(** [w / 100.0] *)
Definition py_truediv (w : value) (d : float) : M float :=
  match w with
  | VNum x => ret (float_truediv x d)
  | _ => raise TypeError
  end.

(** [statistics.mean(data)].  An entry that is not a number is a
    [TypeError]. *)
Fixpoint numbers (xs : list value) : option (list float) :=
  match xs with
  | [] => Some []
  | VNum x :: xs' => option_map (cons x) (numbers xs')
  | _ :: _ => None
  end.

(** [statistics._sum(data)] keeps one exact integer numerator for each
    denominator met ([partials]), in the order the denominators are
    first met, and under the key [None] the float sum of the entries
    that have no exact ratio. *)
Fixpoint partials_add (d : positive) (n : Z) (partials : list (positive * Z))
    : list (positive * Z) :=
  match partials with
  | [] => [(d, n)]
  | (d', n') :: rest =>
      if Pos.eqb d' d then (d', (n' + n)%Z) :: rest
      else (d', n') :: partials_add d n rest
  end.

Definition _sum_step (acc : list (positive * Z) * option float) (x : float)
    : list (positive * Z) * option float :=
  match as_integer_ratio x with
  | Some (n, d) => (partials_add d n acc.1, acc.2)
  | None => (acc.1, Some (float_add (default (float_of_int 0) acc.2) x))
  end.

(** The total: the float under [None] if there is one, else the sum of
    the fractions [n / d], exact. *)
Definition _sum (xs : list float) : float + Q :=
  let '(partials, special) := fold_left _sum_step xs ([], None) in
  match special with
  | Some total => inl total
  | None =>
      inr (fold_left (fun total dn => Qred (total + (dn.2 # dn.1))) partials 0%Q)
  end.

Definition mean (data : list value) : M float :=
  match numbers data with
  | None => raise TypeError
  | Some [] => raise StatisticsError
  | Some xs =>
      let n := Z.of_nat (List.length xs) in
      match _sum xs with
      | inr total => ret (Fraction_float (total / inject_Z n))
      | inl total => ret (float_truediv total (float_of_int n))
      end
  end.

(** [round(x, ndigits)] for a float: the exact value of [x] is rounded to
    the nearest multiple of [10^-ndigits], a tie going to the even one,
    and the result is the double nearest that decimal, with the sign of
    [x]; an infinity or a NaN is returned as it is. *)
Definition round_half_even (x : Q) : Z :=
  let f := Qfloor x in
  match Qcompare (x - inject_Z f)%Q (1 # 2)%Q with
  | Lt => f
  | Gt => (f + 1)%Z
  | Eq => if Z.even f then f else (f + 1)%Z
  end.

Definition py_round (x : float) (ndigits : nat) : float :=
  if is_finite x then
    let scale := (10 ^ Z.of_nat ndigits)%Z in
    let n := round_half_even (float_value x * inject_Z scale) in
    if Z.eqb n 0 then S754_zero (sign_of x)
    else int_truediv n (Z.to_pos scale)
  else x.

(** ** [main.py]: the weight write *)

Record WeightIn := {
  wi_subject_id : string;
  wi_class_name : option string;
  wi_tugas : float;
  wi_kuis : float;
  wi_uts : float;
  wi_uas : float
}.

Definition opt_str (o : option string) : value :=
  match o with Some s => VStr s | None => VNone end.

(** [payload.model_dump()] *)
Definition model_dump (p : WeightIn) : dict :=
  <["subject_id" := VStr (wi_subject_id p)]>
  (<["class_name" := opt_str (wi_class_name p)]>
  (<["tugas" := VNum (wi_tugas p)]>
  (<["kuis" := VNum (wi_kuis p)]>
  (<["uts" := VNum (wi_uts p)]>
  (<["uas" := VNum (wi_uas p)]> ∅))))).

(** The query of [set_weight] for its composite key. *)
Definition weight_key (subject_id : value) (class_name : value) : query :=
  [("subject_id", subject_id); ("class_name", class_name)].

(** [set_weight(payload)].  [now] is the clock reading of the handler,
    [now'] the one [create_document] takes, [oid] the identifier
    generated if a document is inserted.  The result is the dict
    [{"id": weight_id, **data}]. *)
Definition set_weight (now now' : datetime) (oid : ObjectId)
    (payload : WeightIn) : M dict :=
  let data := model_dump payload in
  subject_id <- subscript data "subject_id" ;;
  existing <- find_one "weight"
                (weight_key subject_id (dict_get data "class_name" VNone)) ;;
  let data := <["updated_at" := VDate now]> data in
  match existing with
  | Some existing =>
      update_one "weight" [("_id", VOid (_id existing))] data ;;;
      let weight_id := ObjectId_str (_id existing) in
      ret (data ∪ {["id" := VStr weight_id]})
  | None =>
      let data := <["created_at" := VDate now]> data in
      weight_id <- create_document now' oid "weight" data ;;
      ret (data ∪ {["id" := VStr weight_id]})
  end.

(** ** [main.py]: the report *)

Record Component := {
  c_type : string;
  c_average : option float;
  c_weight : value;
  c_weighted_score : float
}.

Record Report := {
  r_student_id : value;
  r_student_full_name : value;
  r_student_class_name : value;
  r_subject_id : value;
  r_subject_name : value;
  r_subject_kkm : float;
  r_weights : value * value * value * value;
  r_components : list Component;
  r_final_score : float;
  r_status : string
}.

(** Lines 163 to 172 of [generate_report]: the weights for a subject and
    a class name, in the order tugas, kuis, uts, uas. *)
Definition resolve_weight (subject_id : string) (class_name : value)
    : M (value * value * value * value) :=
  weight <- find_one "weight" (weight_key (VStr subject_id) class_name) ;;
  weight <- match weight with
            | Some w => ret (Some w)
            | None => find_one "weight" (weight_key (VStr subject_id) VNone)
            end ;;
  let weight_or_empty :=
    match weight with Some w => to_dict w | None => ∅ end in
  let tugas_w := dict_get weight_or_empty "tugas" (num 30) in
  let kuis_w := dict_get weight_or_empty "kuis" (num 20) in
  let uts_w := dict_get weight_or_empty "uts" (num 20) in
  let uas_w := dict_get weight_or_empty "uas" (num 30) in
  ret (tugas_w, kuis_w, uts_w, uas_w).

(** The nested function [avg_of(t)], with the [student_id] and
    [subject_id] it closes over. *)
Definition score_query (student_id subject_id t : string) : query :=
  [("student_id", VStr student_id); ("subject_id", VStr subject_id);
   ("type", VStr t)].

Definition avg_of (student_id subject_id t : string) : M (option float) :=
  docs <- find "score" (score_query student_id subject_id t) ;;
  match docs with
  | [] => ret None
  | _ :: _ =>
      m <- mean (List.map (fun doc => dict_get (to_dict doc) "value" (num 0)) docs) ;;
      ret (Some m)
  end.

(** The loop of lines 192 to 208 over the four (name, average, weight)
    triples, from [components = []] and [final = 0.0]. *)
Definition average_or_zero (avg_val : option float) : float :=
  match avg_val with Some a => a | None => float_zero end.

Definition weigh_step (acc : list Component * float)
    (x : string * option float * value) : M (list Component * float) :=
  let '(components, final) := acc in
  let '(name, avg_val, w) := x in
  wf <- py_truediv w (float_of_int 100) ;;
  let comp_score := float_mul (average_or_zero avg_val) wf in
  ret ((components ++ [Build_Component name avg_val w comp_score])%list,
       float_add final comp_score).

Fixpoint for_each {A B} (step : A -> B -> M A) (acc : A) (xs : list B) : M A :=
  match xs with
  | [] => ret acc
  | x :: xs' => acc' <- step acc x ;; for_each step acc' xs'
  end.

Definition weigh (rows : list (string * option float * value))
    : M (list Component * float) :=
  for_each weigh_step ([], float_zero) rows.

Section Report.

(** [float(s)] for a string [s] is Python's own parser of float
    literals, taken as given; [None] stands for its [ValueError]. *)
Variable float_of_str : string -> option float.

(** [float(v)] *)
Definition py_float (v : value) : M float :=
  match v with
  | VNum x => ret x
  | VStr s =>
      match float_of_str s with
      | Some x => ret x
      | None => raise ValueError
      end
  | _ => raise TypeError
  end.

(** [generate_report(student_id, subject_id)].  A dict returned by
    [get_document_by_id] always has the key [id], so [not student] holds
    exactly when [student] is [None]. *)
Definition generate_report (student_id subject_id : string) : M Report :=
  student <- get_document_by_id "student" student_id ;;
  subject <- get_document_by_id "subject" subject_id ;;
  match student, subject with
  | Some student, Some subject =>
      let class_name := dict_get student "class_name" VNone in
      weights <- resolve_weight subject_id class_name ;;
      let '(tugas_w, kuis_w, uts_w, uas_w) := weights in
      s1 <- py_add tugas_w kuis_w ;;
      s2 <- py_add s1 uts_w ;;
      total_w <- py_add s2 uas_w ;;
      if py_eq_zero total_w
      then raise (HTTPException 400 "Semua bobot 0")
      else
        tugas_avg <- avg_of student_id subject_id "tugas" ;;
        kuis_avg <- avg_of student_id subject_id "kuis" ;;
        uts_avg <- avg_of student_id subject_id "uts" ;;
        uas_avg <- avg_of student_id subject_id "uas" ;;
        weighed <-
          weigh [("tugas", tugas_avg, tugas_w); ("kuis", kuis_avg, kuis_w);
                 ("uts", uts_avg, uts_w); ("uas", uas_avg, uas_w)] ;;
        let '(components, final) := weighed in
        kkm <- py_float (dict_get subject "kkm" (num 70)) ;;
        let status := if float_le kkm final then "Tuntas" else "Belum Tuntas" in
        st_id <- subscript student "id" ;;
        st_full_name <- subscript student "full_name" ;;
        su_id <- subscript subject "id" ;;
        su_name <- subscript subject "name" ;;
        ret {| r_student_id := st_id;
               r_student_full_name := st_full_name;
               r_student_class_name := dict_get student "class_name" VNone;
               r_subject_id := su_id;
               r_subject_name := su_name;
               r_subject_kkm := kkm;
               r_weights := (tugas_w, kuis_w, uts_w, uas_w);
               r_components := components;
               r_final_score := py_round final 2;
               r_status := status |}
  | _, _ => raise (HTTPException 404 "Siswa atau mapel tidak ditemukan")
  end.

End Report.

(** ** [database.py]: listing, updating, deleting *)

(** [cursor.limit(n)]: the first [n] documents; a limit of 0 is no
    limit.  Every caller passes a positive constant. *)
Definition apply_limit {A} (limit : nat) (l : list A) : list A :=
  match limit with
  | O => l
  | _ => firstn limit l
  end.

(** [get_documents(collection_name, filter_dict, limit)] *)
Definition get_documents (collection_name : string)
    (filter_dict : option query) (limit : nat) : M (list dict) :=
  db <- get_db ;;
  match db with
  | None => raise (RuntimeError "Database not initialized")
  | Some _ =>
      let filter_dict := default [] filter_dict in
      cursor <- find collection_name filter_dict ;;
      ret (List.map _to_str_id (apply_limit limit cursor))
  end.

(** The result of [update_one]: whether a document matched, and whether
    writing the fields changed it (a field written with the value it
    already holds is no change). *)
Record UpdateResult := { matched_count : nat; modified_count : nat }.

Definition field_unchanged (d : document) (k : string) (v : value) : bool :=
  match fields d !! k with
  | Some x => value_eqb x v
  | None => false
  end.

Definition changed_by (data : dict) (d : document) : bool :=
  negb (bool_decide (map_Forall (fun k v => field_unchanged d k v = true) data)).

Definition update_one_result (name : string) (q : query) (data : dict)
    : M UpdateResult :=
  c <- db_collection name ;;
  update_one name q data ;;;
  ret match List.find (matches q) c with
      | None => {| matched_count := 0; modified_count := 0 |}
      | Some d => {| matched_count := 1;
                     modified_count := if changed_by data d then 1 else 0 |}
      end.

(** [delete_one(q)]: the first matching document is removed; the result
    is [deleted_count]. *)
Fixpoint remove_first (q : query) (c : collection) : collection :=
  match c with
  | [] => []
  | d :: c' => if matches q d then c' else d :: remove_first q c'
  end.

Definition delete_one (name : string) (q : query) : M nat :=
  c <- db_collection name ;;
  match List.find (matches q) c with
  | None => ret 0%nat
  | Some _ => put_collection name (remove_first q c) ;;; ret 1%nat
  end.

(** [update_document(collection_name, doc_id, updates)]; [now] is the
    clock reading.  [ObjectId(doc_id)] is not guarded here. *)
Definition update_document (now : datetime) (collection_name doc_id : string)
    (updates : dict) : M bool :=
  db <- get_db ;;
  match db with
  | None => raise (RuntimeError "Database not initialized")
  | Some _ =>
      let updates := <["updated_at" := VDate now]> updates in
      oid <- ObjectId_of_str doc_id ;;
      result <- update_one_result collection_name [("_id", VOid oid)] updates ;;
      ret (Nat.ltb 0 (modified_count result))
  end.

(** [delete_document(collection_name, doc_id)] *)
Definition delete_document (collection_name doc_id : string) : M bool :=
  db <- get_db ;;
  match db with
  | None => raise (RuntimeError "Database not initialized")
  | Some _ =>
      oid <- ObjectId_of_str doc_id ;;
      deleted_count <- delete_one collection_name [("_id", VOid oid)] ;;
      ret (Nat.ltb 0 deleted_count)
  end.

(** ** [main.py]: the other handlers *)

Record StudentIn := {
  si_full_name : string;
  si_student_number : string;
  si_class_name : string;
  si_gender : option string;
  si_birth_date : option datetime
}.

Record SubjectIn := { su_name : string; su_kkm : float }.

Record ScoreIn := {
  sc_student_id : string;
  sc_subject_id : string;
  sc_type : string;
  sc_value : float;
  sc_note : option string;
  sc_date : option datetime
}.

(** The bounds the request models declare ([Field(ge=0, le=100)]); a
    payload reaches its handler only if it meets them. *)
Definition in_bounds (x : float) : bool :=
  float_le (float_of_int 0) x && float_le x (float_of_int 100).

Definition SubjectIn_valid (p : SubjectIn) : Prop := in_bounds (su_kkm p) = true.

Definition ScoreIn_valid (p : ScoreIn) : Prop := in_bounds (sc_value p) = true.

Definition opt_date (o : option datetime) : value :=
  match o with Some t => VDate t | None => VNone end.

Definition student_dump (p : StudentIn) : dict :=
  <["full_name" := VStr (si_full_name p)]>
  (<["student_number" := VStr (si_student_number p)]>
  (<["class_name" := VStr (si_class_name p)]>
  (<["gender" := opt_str (si_gender p)]>
  (<["birth_date" := opt_date (si_birth_date p)]> ∅)))).

Definition subject_dump (p : SubjectIn) : dict :=
  <["name" := VStr (su_name p)]> (<["kkm" := VNum (su_kkm p)]> ∅).

Definition score_dump (p : ScoreIn) : dict :=
  <["student_id" := VStr (sc_student_id p)]>
  (<["subject_id" := VStr (sc_subject_id p)]>
  (<["type" := VStr (sc_type p)]>
  (<["value" := VNum (sc_value p)]>
  (<["note" := opt_str (sc_note p)]>
  (<["date" := opt_date (sc_date p)]> ∅))))).

(** [create_student(payload)] *)
Definition create_student (now : datetime) (oid : ObjectId)
    (payload : StudentIn) : M dict :=
  let data := student_dump payload in
  student_id <- create_document now oid "student" data ;;
  ret (data ∪ {["id" := VStr student_id]}).

(** [create_subject(payload)] *)
Definition create_subject (now : datetime) (oid : ObjectId)
    (payload : SubjectIn) : M dict :=
  let data := subject_dump payload in
  subject_id <- create_document now oid "subject" data ;;
  ret (data ∪ {["id" := VStr subject_id]}).

(** [add_score(payload)]; [now] is the handler's clock reading, used for
    a missing [date], [now'] the one [create_document] takes. *)
Definition add_score (now now' : datetime) (oid : ObjectId)
    (payload : ScoreIn) : M dict :=
  let data := score_dump payload in
  let data :=
    match dict_get data "date" VNone with
    | VNone => <["date" := VDate now]> data
    | _ => data
    end in
  score_id <- create_document now' oid "score" data ;;
  ret (data ∪ {["id" := VStr score_id]}).

(** [if x:] for an optional string argument. *)
Definition truthy (o : option string) : option string :=
  match o with
  | Some "" => None
  | other => other
  end.

Definition filter_on (k : string) (o : option string) : query :=
  match o with Some x => [(k, VStr x)] | None => [] end.

(** [list_subjects()] *)
Definition list_subjects : M (list dict) :=
  get_documents "subject" (Some []) 200.

(** [list_weights(subject_id, class_name)]: [subject_id] filters when it
    is truthy, [class_name] when it is not [None]. *)
Definition list_weights (subject_id class_name : option string) : M (list dict) :=
  let flt := (filter_on "subject_id" (truthy subject_id)
              ++ filter_on "class_name" class_name)%list in
  get_documents "weight" (Some flt) 200.

(** [list_scores(student_id, subject_id, type)] *)
Definition list_scores (student_id subject_id type : option string) : M (list dict) :=
  let flt := (filter_on "student_id" (truthy student_id)
              ++ filter_on "subject_id" (truthy subject_id)
              ++ filter_on "type" (truthy type))%list in
  get_documents "score" (Some flt) 500.

(** The fields [set_weight] writes: on an update, and on an insert
    (where [create_document] keeps [created_at] and refreshes
    [updated_at]). *)
Definition written_on_update (now : datetime) (p : WeightIn) : dict :=
  <["updated_at" := VDate now]> (model_dump p).

Definition written_on_insert (now now' : datetime) (p : WeightIn) : dict :=
  <["updated_at" := VDate now']>
    (<["created_at" := VDate now]> (<["updated_at" := VDate now]> (model_dump p))).

(** The fields [create_document] stores for [data]. *)
Definition stamped (now : datetime) (data : dict) : dict :=
  <["updated_at" := VDate now]>
    (match data !! "created_at" with
     | None => <["created_at" := VDate now]> data
     | Some _ => data
     end).

(** The fields [add_score] hands to [create_document]: the payload, with
    [date] = the handler's clock reading when the payload has none. *)
Definition score_written (now : datetime) (p : ScoreIn) : dict :=
  match dict_get (score_dump p) "date" VNone with
  | VNone => <["date" := VDate now]> (score_dump p)
  | _ => score_dump p
  end.

(** ** Documents as the request models shape them *)

Definition has_field (d : document) (k : string) : bool :=
  match fields d !! k with Some _ => true | None => false end.

Definition numeric_or_absent (d : document) (k : string) : bool :=
  match fields d !! k with
  | None | Some (VNum _) => true
  | Some _ => false
  end.

Definition student_ok (d : document) : bool := has_field d "full_name".

Definition subject_ok (d : document) : bool :=
  has_field d "name" && numeric_or_absent d "kkm".

Definition weight_ok (d : document) : bool :=
  numeric_or_absent d "tugas" && numeric_or_absent d "kuis"
  && numeric_or_absent d "uts" && numeric_or_absent d "uas".

Definition score_ok (d : document) : bool := numeric_or_absent d "value".

(** Every student has a name, every subject a name and a numeric (or no)
    kkm, and every weight and score value that is present is a number. *)
Definition schema_ok (s : Store) : bool :=
  forallb student_ok (coll_of s "student")
  && forallb subject_ok (coll_of s "subject")
  && forallb weight_ok (coll_of s "weight")
  && forallb score_ok (coll_of s "score").

(** Every numeric score value lies between 0 and 100. *)
Definition value_in_range (d : document) : bool :=
  match fields d !! "value" with
  | Some (VNum v) => in_bounds v
  | _ => true
  end.

Definition scores_in_range (s : Store) : bool :=
  forallb value_in_range (coll_of s "score").

Definition payload_weights (p : WeightIn) : value * value * value * value :=
  (VNum (wi_tugas p), VNum (wi_kuis p), VNum (wi_uts p), VNum (wi_uas p)).

(** ** Example stores *)

Definition ex_student_id : string := "aaaaaaaaaaaaaaaaaaaaaaaa".
Definition ex_subject_id : string := "bbbbbbbbbbbbbbbbbbbbbbbb".

Definition ex_student : document :=
  Document (Oid ex_student_id)
    (<["full_name" := VStr "Budi"]>
     (<["student_number" := VStr "1001"]>
     (<["class_name" := VStr "VIIA"]> ∅))).

Definition ex_subject : document :=
  Document (Oid ex_subject_id)
    (<["name" := VStr "Matematika"]> (<["kkm" := num 70]> ∅)).

Definition ex_score (n : nat) (t : string) (v : Z) : document :=
  Document (Oid (String.append "cccccccccccccccccccccc" (String.append t (String (ascii_of_nat (48 + n)) ""))))
    (<["student_id" := VStr ex_student_id]>
     (<["subject_id" := VStr ex_subject_id]>
     (<["type" := VStr t]> (<["value" := num v]> ∅)))).

Definition ex_store (scores weights : collection) : Store :=
  <["student" := [ex_student]]>
  (<["subject" := [ex_subject]]>
  (<["score" := scores]>
  (<["weight" := weights]> ∅))).

(** One score for each assessment type: 53, 81, 74 and 77; no weight is
    configured. *)
Definition ex_scores_near : collection :=
  [ex_score 0 "tugas" 53; ex_score 1 "kuis" 81;
   ex_score 2 "uts" 74; ex_score 3 "uas" 77].

Definition no_float : string -> option float := fun _ => None.

(** Two tugas scores (70 and 90), one kuis (70), one uas (75), no uts. *)
Definition ex_scores_partial : collection :=
  [ex_score 0 "tugas" 70; ex_score 1 "tugas" 90; ex_score 2 "kuis" 70;
   ex_score 3 "uas" 75].

(** A Weight record for the example subject and class VIIA with every
    percentage 0. *)
Definition ex_weight_zero : document :=
  Document (Oid "dddddddddddddddddddddddd")
    (model_dump {| wi_subject_id := ex_subject_id; wi_class_name := Some "VIIA";
                   wi_tugas := float_of_int 0; wi_kuis := float_of_int 0;
                   wi_uts := float_of_int 0; wi_uas := float_of_int 0 |}).

(** A Weight record for the example subject and class VIIA with the
    given percentages. *)
Definition ex_weight_of (tugas kuis uts uas : float) : document :=
  Document (Oid "dddddddddddddddddddddddd")
    (model_dump {| wi_subject_id := ex_subject_id; wi_class_name := Some "VIIA";
                   wi_tugas := tugas; wi_kuis := kuis;
                   wi_uts := uts; wi_uas := uas |}).

(** An infinite percentage for tugas. *)
Definition ex_weight_inf : document :=
  ex_weight_of (S754_infinity false) (float_of_int 20) (float_of_int 20)
               (float_of_int 30).

(** The percentages 1e308, 1e308, 0, 0. *)
Definition ex_weight_huge : document :=
  ex_weight_of (float_of_int (10 ^ 308)) (float_of_int (10 ^ 308))
               (float_of_int 0) (float_of_int 0).

(** The percentages 2^53, 1, -2^53, -1, whose exact sum is 0. *)
Definition ex_weight_cancel : document :=
  ex_weight_of (float_of_int (2 ^ 53)) (float_of_int 1)
               (float_of_int (- 2 ^ 53)) (float_of_int (- 1)).

(** A subject-wide Weight record that holds only [tugas]. *)
Definition ex_weight_partial : document :=
  Document (Oid "eeeeeeeeeeeeeeeeeeeeeeee")
    (<["subject_id" := VStr ex_subject_id]> (<["tugas" := num 50]> ∅)).

Definition ex_payload : WeightIn :=
  {| wi_subject_id := ex_subject_id; wi_class_name := Some "VIIA";
     wi_tugas := float_of_int 25; wi_kuis := float_of_int 25;
     wi_uts := float_of_int 25; wi_uas := float_of_int 25 |}.

Definition ex_fresh_oid : ObjectId := Oid "999999999999999999999999".

Definition ex_subject_payload : SubjectIn := {| su_name := "IPA"; su_kkm := float_of_int 75 |}.

Definition ex_student_payload : StudentIn :=
  {| si_full_name := "Siti"; si_student_number := "1002";
     si_class_name := "VIIB"; si_gender := None; si_birth_date := None |}.

Definition ex_score_payload : ScoreIn :=
  {| sc_student_id := ex_student_id; sc_subject_id := ex_subject_id;
     sc_type := "tugas"; sc_value := float_of_int 80; sc_note := None; sc_date := None |}.

(** A score of a type the report does not know. *)
Definition ex_score_payload_other : ScoreIn :=
  {| sc_student_id := ex_student_id; sc_subject_id := ex_subject_id;
     sc_type := "praktik"; sc_value := float_of_int 10; sc_note := None; sc_date := None |}.

Definition ex_payload_wide : WeightIn :=
  {| wi_subject_id := ex_subject_id; wi_class_name := None;
     wi_tugas := float_of_int 40; wi_kuis := float_of_int 10;
     wi_uts := float_of_int 20; wi_uas := float_of_int 30 |}.

(** A score collection of 500 records. *)
Definition ex_scores_many : collection :=
  List.repeat (ex_score 0 "tugas" 70) 500.

(** The response and the store of a weight write on an example store. *)
Definition ex_written (p : WeightIn) (s : Store) : dict * Store :=
  match set_weight 5%Z 6%Z ex_fresh_oid p (Some s) with
  | (inr res, Some s') => (res, s')
  | _ => (∅, s)
  end.

(** The response and the store of [add_score] on an example store. *)
Definition ex_added (p : ScoreIn) (s : Store) : dict * Store :=
  match add_score 5%Z 6%Z ex_fresh_oid p (Some s) with
  | (inr res, Some s') => (res, s')
  | _ => (∅, s)
  end.

(** The report for the example student and subject on a store. *)
Definition ex_report (s : Store) : Report :=
  match (generate_report no_float ex_student_id ex_subject_id (Some s)).1 with
  | inr r => r
  | inl _ =>
      {| r_student_id := VNone; r_student_full_name := VNone;
         r_student_class_name := VNone; r_subject_id := VNone;
         r_subject_name := VNone; r_subject_kkm := float_zero;
         r_weights := (VNone, VNone, VNone, VNone); r_components := [];
         r_final_score := float_zero; r_status := "" |}
  end.

Definition ex_scores_all (v : Z) : collection :=
  [ex_score 0 "tugas" v; ex_score 1 "kuis" v; ex_score 2 "uts" v;
   ex_score 3 "uas" v].


(** ** Reading a report *)

(** The four entries of [components] and the value of [final] after the
    loop, for averages [a1 .. a4] and numeric weights [tw kw uw aw]. *)
Definition weighted (avg_val : option float) (w : float) : float :=
  float_mul (average_or_zero avg_val) (float_truediv w (float_of_int 100)).

Definition components_of (a1 a2 a3 a4 : option float) (tw kw uw aw : float)
    : list Component :=
  [Build_Component "tugas" a1 (VNum tw) (weighted a1 tw);
   Build_Component "kuis" a2 (VNum kw) (weighted a2 kw);
   Build_Component "uts" a3 (VNum uw) (weighted a3 uw);
   Build_Component "uas" a4 (VNum aw) (weighted a4 aw)].

Definition final_of (a1 a2 a3 a4 : option float) (tw kw uw aw : float) : float :=
  float_add
    (float_add
       (float_add (float_add float_zero (weighted a1 tw)) (weighted a2 kw))
       (weighted a3 uw))
    (weighted a4 aw).

(** [total_w]: the four weights added from left to right. *)
Definition total_of (tw kw uw aw : float) : float :=
  float_add (float_add (float_add tw kw) uw) aw.

(** The unrounded final score as a reader of the payload recovers it:
    the [weighted_score] entries added up in order from [0.0]. *)
Definition unrounded_final (r : Report) : float :=
  fold_left (fun f c => float_add f (c_weighted_score c)) (r_components r)
            float_zero.

(** The pure content of [get_document_by_id] on a store. *)
Definition document_by_id (s : Store) (name doc_id : string) : option dict :=
  match ObjectId_parse doc_id with
  | Some o => option_map _to_str_id (List.find (matches [("_id", VOid o)]) (coll_of s name))
  | None => None
  end.

(** An identifier resolves in a collection when it is a well-formed
    [ObjectId] and a stored document carries it. *)
Definition resolves (s : Store) (name doc_id : string) : Prop :=
  exists o d, ObjectId_parse doc_id = Some o /\ In d (coll_of s name) /\ _id d = o.

(** ** The resolver and the aggregator in the words of the specification *)

(** A field that holds the given string. *)
Definition str_field_is (d : document) (k x : string) : bool :=
  match fields d !! k with
  | Some (VStr y) => String.eqb y x
  | _ => false
  end.

(** A Weight record is scoped to [(subject_id, class_name)]: its subject
    reference is the identifier and its class scope is the class name; a
    record without class scope, or with a null one, is the subject-wide
    record, scoped to [class_name = None]. *)
Definition scope_is (subject_id : string) (class_name : value)
    (d : document) : bool :=
  str_field_is d "subject_id" subject_id &&
  match fields d !! "class_name" with
  | Some v => value_eqb v class_name
  | None => match class_name with VNone => true | _ => false end
  end.

Definition hardcoded_weights : value * value * value * value :=
  (num 30, num 20, num 20, num 30).

(** The percentages a Weight record holds, a field it lacks taking its
    own default. *)
Definition weights_of_record (w : document) : value * value * value * value :=
  (default (num 30) (fields w !! "tugas"),
   default (num 20) (fields w !! "kuis"),
   default (num 20) (fields w !! "uts"),
   default (num 30) (fields w !! "uas")).

(** Steps 1 and 2 of the resolver: the record for the exact scope, else
    the subject-wide one. *)
Definition spec_weight_record (c : collection) (subject_id : string)
    (class_name : value) : option document :=
  match List.find (scope_is subject_id class_name) c with
  | Some w => Some w
  | None => List.find (scope_is subject_id VNone) c
  end.

(** The three-level fallback. *)
Definition spec_resolve_weight (c : collection) (subject_id : string)
    (class_name : value) : value * value * value * value :=
  match spec_weight_record c subject_id class_name with
  | Some w => weights_of_record w
  | None => hardcoded_weights
  end.

(** The Score records of a (student, subject, assessment type) triple. *)
Definition score_is (student_id subject_id t : string) (d : document) : bool :=
  str_field_is d "student_id" student_id &&
  str_field_is d "subject_id" subject_id &&
  str_field_is d "type" t.

Definition matching_scores (s : Store) (student_id subject_id t : string)
    : collection :=
  List.filter (score_is student_id subject_id t) (coll_of s "score").



(** ** The invariant of the weight collection *)

Definition at_most_one_per_scope (c : collection) : Prop :=
  forall (subject_id : string) (class_name : option string),
    (List.length (List.filter (scope_is subject_id (opt_str class_name)) c) <= 1)%nat.

(** The store's own guarantee: no two documents of a collection share an
    [_id]. *)
Definition unique_ids (c : collection) : Prop :=
  NoDup (List.map _id c).

(** What a caller receives from an outcome: the payload, if any. *)
Definition payload_of {A} (outcome : Exn + A) : option A :=
  match outcome with inr a => Some a | inl _ => None end.

(** A computation that leaves [db] as it found it. *)
Definition read_only {A} (m : M A) : Prop := forall db, (m db).2 = db.

(** * Properties *)

(** ** Running the monad *)

Lemma bind_inr {A B} (m : M A) (k : A -> M B) db a db' :
  m db = (inr a, db') -> bind m k db = k a db'.
Proof. intros H. unfold bind. now rewrite H. Qed.

Lemma bind_inl {A B} (m : M A) (k : A -> M B) db e db' :
  m db = (inl e, db') -> bind m k db = (inl e, db').
Proof. intros H. unfold bind. now rewrite H. Qed.

Lemma bind_inv {A B} (m : M A) (k : A -> M B) db b db2 :
  bind m k db = (inr b, db2) ->
  exists a db1, m db = (inr a, db1) /\ k a db1 = (inr b, db2).
Proof.
  unfold bind. destruct (m db) as [[e | a] db1]; intros H.
  - discriminate.
  - exists a, db1. auto.
Qed.

Lemma read_only_ret {A} (a : A) : read_only (ret a).
Proof. intros db. reflexivity. Qed.

Lemma read_only_raise {A} e : read_only (@raise A e).
Proof. intros db. reflexivity. Qed.

Lemma read_only_bind {A B} (m : M A) (k : A -> M B) :
  read_only m -> (forall a, read_only (k a)) -> read_only (bind m k).
Proof.
  intros Hm Hk db. unfold bind. specialize (Hm db).
  destruct (m db) as [[e | a] db1]; simpl in *; subst db1.
  - reflexivity.
  - apply Hk.
Qed.

Lemma read_only_try_except {A} (m : M A) h :
  read_only m -> (forall e, read_only (h e)) -> read_only (try_except m h).
Proof.
  intros Hm Hh db. unfold try_except. specialize (Hm db).
  destruct (m db) as [[e | a] db1]; simpl in *; subst db1.
  - apply Hh.
  - reflexivity.
Qed.

Lemma read_only_get_db : read_only get_db.
Proof. intros db. reflexivity. Qed.

Lemma read_only_db_collection name : read_only (db_collection name).
Proof. intros [s |]; reflexivity. Qed.

Create HintDb ro.
#[local] Hint Resolve read_only_ret read_only_raise read_only_get_db
  read_only_db_collection : ro.
#[local] Hint Extern 2 (read_only (bind _ _)) =>
  apply read_only_bind; [ | intros ? ] : ro.
#[local] Hint Extern 2 (read_only (try_except _ _)) =>
  apply read_only_try_except; [ | intros ? ] : ro.
#[local] Hint Extern 3 (read_only (match ?x with _ => _ end)) =>
  destruct x : ro.

Lemma read_only_find name q : read_only (find name q).
Proof. unfold find. auto with ro. Qed.

Lemma read_only_find_one name q : read_only (find_one name q).
Proof. unfold find_one. auto with ro. Qed.

#[local] Hint Resolve read_only_find read_only_find_one : ro.

Lemma read_only_ObjectId_of_str doc_id : read_only (ObjectId_of_str doc_id).
Proof. unfold ObjectId_of_str. auto with ro. Qed.

#[local] Hint Resolve read_only_ObjectId_of_str : ro.

Lemma read_only_get_document_by_id name doc_id :
  read_only (get_document_by_id name doc_id).
Proof. unfold get_document_by_id. auto 8 with ro. Qed.

Lemma read_only_subscript d k : read_only (subscript d k).
Proof. unfold subscript. auto with ro. Qed.

Lemma read_only_py_add a b : read_only (py_add a b).
Proof. unfold py_add. destruct a, b; auto with ro. Qed.

Lemma read_only_py_truediv w d : read_only (py_truediv w d).
Proof. unfold py_truediv. auto with ro. Qed.

Lemma read_only_mean xs : read_only (mean xs).
Proof. unfold mean. auto with ro. Qed.

#[local] Hint Resolve read_only_get_document_by_id read_only_subscript
  read_only_py_add read_only_py_truediv read_only_mean : ro.

Lemma read_only_resolve_weight subject_id class_name :
  read_only (resolve_weight subject_id class_name).
Proof. unfold resolve_weight. auto 8 with ro. Qed.

Lemma read_only_avg_of student_id subject_id t :
  read_only (avg_of student_id subject_id t).
Proof. unfold avg_of. auto 8 with ro. Qed.

Lemma read_only_for_each {A B} (step : A -> B -> M A) xs :
  (forall a b, read_only (step a b)) -> forall acc, read_only (for_each step acc xs).
Proof.
  intros Hstep. induction xs as [| x xs IH]; intros acc; simpl.
  - apply read_only_ret.
  - apply read_only_bind; [ apply Hstep | intros a; apply IH ].
Qed.

Lemma read_only_weigh rows : read_only (weigh rows).
Proof.
  unfold weigh. apply read_only_for_each.
  intros [components final] [[name avg_val] w]. unfold weigh_step.
  auto with ro.
Qed.

#[local] Hint Resolve read_only_resolve_weight read_only_avg_of
  read_only_weigh : ro.

Lemma read_only_py_float fos v : read_only (py_float fos v).
Proof. unfold py_float. destruct v; auto with ro. Qed.

#[local] Hint Resolve read_only_py_float : ro.

Ltac ro_step :=
  first
    [ apply read_only_bind; [ solve [ auto with ro ] | intros ? ]
    | match goal with
      | |- read_only (if ?b then _ else _) => destruct b
      | |- read_only (match ?x with _ => _ end) => destruct x
      end
    | solve [ auto with ro ] ].

Lemma read_only_generate_report fos student_id subject_id :
  read_only (generate_report fos student_id subject_id).
Proof. unfold generate_report. repeat ro_step. Qed.

(** ** Runs on an initialised store *)

Lemma read_only_run {A} (m : M A) db x db1 :
  read_only m -> m db = (x, db1) -> db1 = db.
Proof. intros Hm H. specialize (Hm db). rewrite H in Hm. exact Hm. Qed.

Lemma find_one_run name q s :
  find_one name q (Some s) = (inr (List.find (matches q) (coll_of s name)), Some s).
Proof. reflexivity. Qed.

Lemma find_run name q s :
  find name q (Some s) = (inr (List.filter (matches q) (coll_of s name)), Some s).
Proof. reflexivity. Qed.

Lemma get_document_by_id_run name doc_id s :
  get_document_by_id name doc_id (Some s)
  = (inr (document_by_id s name doc_id), Some s).
Proof.
  unfold get_document_by_id, document_by_id, ObjectId_of_str.
  cbn. unfold try_except, bind.
  destruct (ObjectId_parse doc_id) as [o |]; reflexivity.
Qed.

Lemma get_document_by_id_None name doc_id :
  get_document_by_id name doc_id None
  = (inl (RuntimeError "Database not initialized"), None).
Proof. reflexivity. Qed.

Lemma ObjectId_eqb_eq a b : ObjectId_eqb a b = true <-> a = b.
Proof.
  destruct a as [x], b as [y]. unfold ObjectId_eqb. simpl.
  rewrite String.eqb_eq. split; congruence.
Qed.

Lemma matches_id o d : matches [("_id", VOid o)] d = ObjectId_eqb (_id d) o.
Proof.
  unfold matches, field_matches, to_dict. simpl.
  rewrite lookup_insert_eq. simpl. apply andb_true_r.
Qed.

Lemma document_by_id_Some s name doc_id :
  is_Some (document_by_id s name doc_id) <-> resolves s name doc_id.
Proof.
  unfold document_by_id, resolves. split.
  - intros [x Hx]. destruct (ObjectId_parse doc_id) as [o |]; [ | discriminate ].
    destruct (List.find _ _) as [d |] eqn:Hf; [ | discriminate ].
    apply List.find_some in Hf as [Hin Hm].
    rewrite matches_id in Hm. apply ObjectId_eqb_eq in Hm.
    exists o, d. auto.
  - intros (o & d & Hp & Hin & Hid). rewrite Hp.
    destruct (List.find _ _) as [d' |] eqn:Hf.
    + simpl. eauto.
    + exfalso. eapply List.find_none in Hf; [ | exact Hin ].
      rewrite matches_id in Hf. subst o.
      assert (ObjectId_eqb (_id d) (_id d) = true) by now apply ObjectId_eqb_eq.
      congruence.
Qed.

Lemma document_by_id_None s name doc_id :
  ~ resolves s name doc_id -> document_by_id s name doc_id = None.
Proof.
  intros H. destruct (document_by_id s name doc_id) eqn:E; [ | reflexivity ].
  exfalso. apply H, document_by_id_Some. rewrite E. eauto.
Qed.

(** ** The shape of a successful report *)

Lemma weigh_run a1 a2 a3 a4 tw kw uw aw db :
  weigh [("tugas", a1, VNum tw); ("kuis", a2, VNum kw);
         ("uts", a3, VNum uw); ("uas", a4, VNum aw)] db
  = (inr (components_of a1 a2 a3 a4 tw kw uw aw,
          final_of a1 a2 a3 a4 tw kw uw aw), db).
Proof. reflexivity. Qed.

Lemma weigh_numeric n1 n2 n3 n4 a1 a2 a3 a4 w1 w2 w3 w4 db x db' :
  weigh [(n1, a1, w1); (n2, a2, w2); (n3, a3, w3); (n4, a4, w4)] db
  = (inr x, db') ->
  exists tw kw uw aw,
    w1 = VNum tw /\ w2 = VNum kw /\ w3 = VNum uw /\ w4 = VNum aw.
Proof.
  unfold weigh. simpl. unfold bind. unfold weigh_step at 1.
  destruct w1 as [| | tw | |]; simpl; try discriminate.
  destruct w2 as [| | kw | |]; simpl; try discriminate.
  destruct w3 as [| | uw | |]; simpl; try discriminate.
  destruct w4 as [| | aw | |]; simpl; try discriminate.
  intros _. exists tw, kw, uw, aw. auto.
Qed.

Ltac inv_bind H :=
  let a := fresh "a" in
  let db1 := fresh "db1" in
  let Ha := fresh "Hrun" in
  apply bind_inv in H; destruct H as (a & db1 & Ha & H).

Lemma generate_report_inv fos student_id subject_id db r db' :
  generate_report fos student_id subject_id db = (inr r, db') ->
  exists s student subject tw kw uw aw a1 a2 a3 a4 kkm,
    db = Some s /\ db' = db /\
    document_by_id s "student" student_id = Some student /\
    document_by_id s "subject" subject_id = Some subject /\
    resolve_weight subject_id (dict_get student "class_name" VNone) db
      = (inr (VNum tw, VNum kw, VNum uw, VNum aw), db) /\
    float_eq (total_of tw kw uw aw) (float_of_int 0) = false /\
    avg_of student_id subject_id "tugas" db = (inr a1, db) /\
    avg_of student_id subject_id "kuis" db = (inr a2, db) /\
    avg_of student_id subject_id "uts" db = (inr a3, db) /\
    avg_of student_id subject_id "uas" db = (inr a4, db) /\
    py_float fos (dict_get subject "kkm" (num 70)) db = (inr kkm, db) /\
    r_student_class_name r = dict_get student "class_name" VNone /\
    r_subject_kkm r = kkm /\
    r_weights r = (VNum tw, VNum kw, VNum uw, VNum aw) /\
    r_components r = components_of a1 a2 a3 a4 tw kw uw aw /\
    r_final_score r = py_round (final_of a1 a2 a3 a4 tw kw uw aw) 2 /\
    r_status r = if float_le kkm (final_of a1 a2 a3 a4 tw kw uw aw)
                 then "Tuntas" else "Belum Tuntas".
Proof.
  intros H.
  assert (Hdb : db' = db)
    by (eapply read_only_run; [ apply read_only_generate_report | exact H ]).
  subst db'.
  destruct db as [s |]; [ | discriminate ].
  unfold generate_report in H.
  rewrite (bind_inr _ _ _ _ _ (get_document_by_id_run _ _ _)) in H.
  rewrite (bind_inr _ _ _ _ _ (get_document_by_id_run _ _ _)) in H.
  destruct (document_by_id s "student" student_id) as [student |] eqn:Est;
    [ | discriminate ].
  destruct (document_by_id s "subject" subject_id) as [subject |] eqn:Esu;
    [ | discriminate ].
  inv_bind H. destruct a as [[[w1 w2] w3] w4].
  pose proof (read_only_run _ _ _ _ (read_only_resolve_weight _ _) Hrun); subst db1.
  inv_bind H. pose proof (read_only_run _ _ _ _ (read_only_py_add _ _) Hrun0); subst db1.
  inv_bind H. pose proof (read_only_run _ _ _ _ (read_only_py_add _ _) Hrun1); subst db1.
  inv_bind H. pose proof (read_only_run _ _ _ _ (read_only_py_add _ _) Hrun2); subst db1.
  destruct (py_eq_zero a1) eqn:Ezero; [ discriminate | ].
  inv_bind H. pose proof (read_only_run _ _ _ _ (read_only_avg_of _ _ _) Hrun3); subst db1.
  inv_bind H. pose proof (read_only_run _ _ _ _ (read_only_avg_of _ _ _) Hrun4); subst db1.
  inv_bind H. pose proof (read_only_run _ _ _ _ (read_only_avg_of _ _ _) Hrun5); subst db1.
  inv_bind H. pose proof (read_only_run _ _ _ _ (read_only_avg_of _ _ _) Hrun6); subst db1.
  inv_bind H. pose proof (read_only_run _ _ _ _ (read_only_weigh _) Hrun7); subst db1.
  destruct (weigh_numeric _ _ _ _ _ _ _ _ _ _ _ _ _ _ _ Hrun7)
    as (tw & kw & uw & aw & -> & -> & -> & ->).
  rewrite weigh_run in Hrun7. injection Hrun7 as <-.
  inv_bind H. pose proof (read_only_run _ _ _ _ (read_only_py_float _ _) Hrun7); subst db1.
  inv_bind H. pose proof (read_only_run _ _ _ _ (read_only_subscript _ _) Hrun8); subst db1.
  inv_bind H. pose proof (read_only_run _ _ _ _ (read_only_subscript _ _) Hrun9); subst db1.
  inv_bind H. pose proof (read_only_run _ _ _ _ (read_only_subscript _ _) Hrun10); subst db1.
  inv_bind H. pose proof (read_only_run _ _ _ _ (read_only_subscript _ _) Hrun11); subst db1.
  injection H as <-. simpl.
  exists s, student, subject, tw, kw, uw, aw, a2, a3, a4, a5, a6.
  repeat split; try assumption; try reflexivity.
  cbn [py_add ret] in Hrun0. injection Hrun0 as <-.
  cbn [py_add ret] in Hrun1. injection Hrun1 as <-.
  cbn [py_add ret] in Hrun2. injection Hrun2 as <-.
  exact Ezero.
Qed.

Lemma py_add_num a b db :
  py_add (VNum a) (VNum b) db = (inr (VNum (float_add a b)), db).
Proof. reflexivity. Qed.

(** Conversely, these conditions are enough for a report. *)
Lemma generate_report_run fos s student_id subject_id student subject
    tw kw uw aw a1 a2 a3 a4 kkm st_id st_full_name su_id su_name :
  document_by_id s "student" student_id = Some student ->
  document_by_id s "subject" subject_id = Some subject ->
  resolve_weight subject_id (dict_get student "class_name" VNone) (Some s)
    = (inr (VNum tw, VNum kw, VNum uw, VNum aw), Some s) ->
  float_eq (total_of tw kw uw aw) (float_of_int 0) = false ->
  avg_of student_id subject_id "tugas" (Some s) = (inr a1, Some s) ->
  avg_of student_id subject_id "kuis" (Some s) = (inr a2, Some s) ->
  avg_of student_id subject_id "uts" (Some s) = (inr a3, Some s) ->
  avg_of student_id subject_id "uas" (Some s) = (inr a4, Some s) ->
  py_float fos (dict_get subject "kkm" (num 70)) (Some s) = (inr kkm, Some s) ->
  student !! "id" = Some st_id ->
  student !! "full_name" = Some st_full_name ->
  subject !! "id" = Some su_id ->
  subject !! "name" = Some su_name ->
  generate_report fos student_id subject_id (Some s)
  = (inr {| r_student_id := st_id;
            r_student_full_name := st_full_name;
            r_student_class_name := dict_get student "class_name" VNone;
            r_subject_id := su_id;
            r_subject_name := su_name;
            r_subject_kkm := kkm;
            r_weights := (VNum tw, VNum kw, VNum uw, VNum aw);
            r_components := components_of a1 a2 a3 a4 tw kw uw aw;
            r_final_score := py_round (final_of a1 a2 a3 a4 tw kw uw aw) 2;
            r_status := if float_le kkm (final_of a1 a2 a3 a4 tw kw uw aw)
                        then "Tuntas" else "Belum Tuntas" |},
     Some s).
Proof.
  intros Hst Hsu Hw Hnz H1 H2 H3 H4 Hk Hi1 Hfn Hi2 Hn.
  unfold generate_report.
  rewrite (bind_inr _ _ _ _ _ (get_document_by_id_run _ _ _)).
  rewrite (bind_inr _ _ _ _ _ (get_document_by_id_run _ _ _)).
  rewrite Hst, Hsu. rewrite (bind_inr _ _ _ _ _ Hw).
  rewrite (bind_inr _ _ _ _ _ (py_add_num _ _ _)).
  rewrite (bind_inr _ _ _ _ _ (py_add_num _ _ _)).
  rewrite (bind_inr _ _ _ _ _ (py_add_num _ _ _)).
  cbn [py_eq_zero]. fold (total_of tw kw uw aw). rewrite Hnz.
  rewrite (bind_inr _ _ _ _ _ H1), (bind_inr _ _ _ _ _ H2),
    (bind_inr _ _ _ _ _ H3), (bind_inr _ _ _ _ _ H4).
  rewrite (bind_inr _ _ _ _ _ (weigh_run _ _ _ _ _ _ _ _ _)).
  rewrite (bind_inr _ _ _ _ _ Hk).
  unfold subscript. rewrite Hi1, Hfn, Hi2, Hn. reflexivity.
Qed.

(** ** Rounding *)




(** ** Comparing and adding doubles *)

Lemma SFcompare_antisym x y :
  SFcompare y x = option_map CompOpp (SFcompare x y).
Proof.
  destruct x as [sx | sx | | sx mx ex], y as [sy | sy | | sy my ey];
    try reflexivity;
    try (destruct sx; reflexivity); try (destruct sy; reflexivity);
    try (destruct sx, sy; reflexivity).
  destruct sx, sy; try reflexivity; cbn [SFcompare option_map];
    rewrite (Z.compare_antisym ex ey), (ZC4 my mx);
    destruct (ex ?= ey)%Z; cbn [CompOpp]; reflexivity.
Qed.

Lemma float_eq_le x y : float_eq x y = true -> float_le y x = true.
Proof.
  unfold float_eq, float_le, SFeqb, SFleb. rewrite (SFcompare_antisym x y).
  destruct (SFcompare x y) as [[| |] |]; simpl; congruence.
Qed.

Lemma float_le_false_lt x y :
  is_nan x = false -> is_nan y = false ->
  float_le x y = false <-> float_lt y x = true.
Proof.
  intros Hx Hy. unfold float_le, float_lt, SFleb, SFltb.
  rewrite (SFcompare_antisym x y).
  destruct (SFcompare x y) as [[| |] |] eqn:E; simpl;
    try (split; congruence).
  destruct x, y; try discriminate; simpl in E;
    repeat match type of E with context [if ?b then _ else _] => destruct b end;
    discriminate.
Qed.

Lemma float_eq_refl_zero s : float_eq (S754_zero s) float_zero = true.
Proof. reflexivity. Qed.




(** ** The grade calculator *)

Lemma unrounded_final_components a1 a2 a3 a4 tw kw uw aw r :
  r_components r = components_of a1 a2 a3 a4 tw kw uw aw ->
  unrounded_final r = final_of a1 a2 a3 a4 tw kw uw aw.
Proof. intros H. unfold unrounded_final. rewrite H. reflexivity. Qed.


(** C2, amended.  In every successful report the verdict is "Tuntas"
    exactly when the unrounded final score (the sum of the four weighted
    components, before the rounding of [final_score]) is at least the
    subject's kkm in the comparison of doubles, and "Belum Tuntas"
    otherwise, which, when neither number is a NaN, is exactly when the
    unrounded final score is below the kkm; equality passes. *)
Theorem verdict_compares_unrounded_final fos student_id subject_id db r db' :
  generate_report fos student_id subject_id db = (inr r, db') ->
  (r_status r = "Tuntas"
   <-> (r_subject_kkm r <= unrounded_final r)%fl = true) /\
  (r_status r = "Belum Tuntas"
   <-> (r_subject_kkm r <= unrounded_final r)%fl = false) /\
  (is_nan (r_subject_kkm r) = false -> is_nan (unrounded_final r) = false ->
   (r_status r = "Belum Tuntas"
    <-> (unrounded_final r < r_subject_kkm r)%fl = true)) /\
  ((unrounded_final r == r_subject_kkm r)%fl = true -> r_status r = "Tuntas").
Proof.
  intros H. apply generate_report_inv in H.
  destruct H as (s & student & subject & tw & kw & uw & aw & a1 & a2 & a3 & a4
                 & kkm & -> & -> & Hst & Hsu & Hw & Hnz & H1 & H2 & H3 & H4
                 & Hk & Hcn & Hkkm & Hws & Hcs & Hfs & Hstat).
  rewrite (unrounded_final_components _ _ _ _ _ _ _ _ _ Hcs), Hkkm, Hstat.
  set (final := final_of a1 a2 a3 a4 tw kw uw aw).
  assert (Hverdict :
            ((if (kkm <= final)%fl then "Tuntas" else "Belum Tuntas") = "Tuntas"
             <-> (kkm <= final)%fl = true) /\
            ((if (kkm <= final)%fl then "Tuntas" else "Belum Tuntas")
             = "Belum Tuntas" <-> (kkm <= final)%fl = false))
    by (destruct (kkm <= final)%fl; split; split; congruence).
  destruct Hverdict as [Hpass Hfail].
  split; [ exact Hpass | ]. split; [ exact Hfail | ]. split.
  - intros Hn1 Hn2. rewrite Hfail. now apply float_le_false_lt.
  - intros Heq. apply Hpass. now apply float_eq_le.
Qed.

(** C4.  When student and subject resolve and the four resolved weights
    are numbers whose total, added from left to right as doubles, is
    equal to zero, the report fails with status 400 whatever the scores
    are; nothing is returned besides the error. *)
Theorem zero_total_weight_is_rejected fos s student_id subject_id
    student subject tw kw uw aw :
  document_by_id s "student" student_id = Some student ->
  document_by_id s "subject" subject_id = Some subject ->
  resolve_weight subject_id (dict_get student "class_name" VNone) (Some s)
    = (inr (VNum tw, VNum kw, VNum uw, VNum aw), Some s) ->
  (tw + kw + uw + aw == float_of_int 0)%fl = true ->
  generate_report fos student_id subject_id (Some s)
  = (inl (HTTPException 400 "Semua bobot 0"), Some s).
Proof.
  intros Hst Hsu Hw Hz. unfold generate_report.
  rewrite (bind_inr _ _ _ _ _ (get_document_by_id_run _ _ _)).
  rewrite (bind_inr _ _ _ _ _ (get_document_by_id_run _ _ _)).
  rewrite Hst, Hsu.
  rewrite (bind_inr _ _ _ _ _ Hw).
  rewrite (bind_inr _ _ _ _ _ (py_add_num _ _ _)).
  rewrite (bind_inr _ _ _ _ _ (py_add_num _ _ _)).
  rewrite (bind_inr _ _ _ _ _ (py_add_num _ _ _)).
  cbn [py_eq_zero]. now rewrite Hz.
Qed.

(** C6.  When the student identifier or the subject identifier does not
    resolve (it is not a well-formed ObjectId, or no stored document
    carries it), the report fails with status 404 and its message, and
    there is no payload. *)
Theorem unresolved_reference_is_not_found fos s student_id subject_id :
  ~ resolves s "student" student_id \/ ~ resolves s "subject" subject_id ->
  generate_report fos student_id subject_id (Some s)
  = (inl (HTTPException 404 "Siswa atau mapel tidak ditemukan"), Some s).
Proof.
  intros H. unfold generate_report.
  rewrite (bind_inr _ _ _ _ _ (get_document_by_id_run _ _ _)).
  rewrite (bind_inr _ _ _ _ _ (get_document_by_id_run _ _ _)).
  destruct H as [H | H]; apply document_by_id_None in H; rewrite H.
  - now destruct (document_by_id s "subject" subject_id).
  - now destruct (document_by_id s "student" student_id).
Qed.


(** C9.  [generate_report] never changes the store: whatever the inputs
    and whatever the outcome, [db] afterwards is [db] before; a run that
    fails hands out the exception and no payload. *)
Theorem generate_report_writes_nothing fos student_id subject_id db :
  (generate_report fos student_id subject_id db).2 = db /\
  (forall e, (generate_report fos student_id subject_id db).1 = inl e ->
             payload_of (generate_report fos student_id subject_id db).1 = None).
Proof.
  split.
  - apply read_only_generate_report.
  - intros e He. rewrite He. reflexivity.
Qed.

(** ** The weight resolver *)

Lemma to_dict_lookup d k : k <> "_id" -> to_dict d !! k = fields d !! k.
Proof. intros H. unfold to_dict. now rewrite lookup_insert_ne. Qed.

Lemma field_matches_str d k x :
  k <> "_id" -> field_matches (to_dict d) (k, VStr x) = str_field_is d k x.
Proof.
  intros H. unfold field_matches, str_field_is. simpl.
  rewrite to_dict_lookup by assumption.
  destruct (fields d !! k) as [[| y | | |] |]; reflexivity.
Qed.

Lemma matches_weight_key subject_id class_name d :
  matches (weight_key (VStr subject_id) class_name) d
  = scope_is subject_id class_name d.
Proof.
  unfold matches, weight_key, scope_is. simpl.
  rewrite field_matches_str by discriminate.
  unfold field_matches. simpl. rewrite to_dict_lookup by discriminate.
  rewrite andb_true_r.
  destruct (fields d !! "class_name"); [ reflexivity | ].
  destruct class_name; reflexivity.
Qed.

Lemma find_ext {A} (f g : A -> bool) l :
  (forall a, f a = g a) -> List.find f l = List.find g l.
Proof.
  intros H. induction l as [| a l IH]; simpl; [ reflexivity | ].
  rewrite H, IH. reflexivity.
Qed.

Lemma find_weight_key subject_id class_name c :
  List.find (matches (weight_key (VStr subject_id) class_name)) c
  = List.find (scope_is subject_id class_name) c.
Proof. apply find_ext. intros d. apply matches_weight_key. Qed.

Lemma dict_get_to_dict w k dflt :
  k <> "_id" -> dict_get (to_dict w) k dflt = default dflt (fields w !! k).
Proof. intros H. unfold dict_get. now rewrite to_dict_lookup. Qed.

Lemma resolve_weight_found subject_id class_name s w :
  spec_weight_record (coll_of s "weight") subject_id class_name = Some w ->
  resolve_weight subject_id class_name (Some s)
  = (inr (weights_of_record w), Some s).
Proof.
  intros H. unfold resolve_weight, spec_weight_record in *.
  rewrite (bind_inr _ _ _ _ _ (find_one_run _ _ _)).
  rewrite find_weight_key.
  destruct (List.find (scope_is subject_id class_name) _) as [w1 |].
  - injection H as ->. cbn. unfold weights_of_record.
    now rewrite !dict_get_to_dict by discriminate.
  - rewrite (bind_inr _ _ _ _ _ (find_one_run _ _ _)).
    rewrite find_weight_key, H. cbn. unfold weights_of_record.
    now rewrite !dict_get_to_dict by discriminate.
Qed.

Lemma resolve_weight_missing subject_id class_name s :
  spec_weight_record (coll_of s "weight") subject_id class_name = None ->
  resolve_weight subject_id class_name (Some s)
  = (inr hardcoded_weights, Some s).
Proof.
  intros H. unfold resolve_weight, spec_weight_record in *.
  rewrite (bind_inr _ _ _ _ _ (find_one_run _ _ _)).
  rewrite find_weight_key.
  destruct (List.find (scope_is subject_id class_name) _) as [w1 |];
    [ discriminate | ].
  rewrite (bind_inr _ _ _ _ _ (find_one_run _ _ _)).
  rewrite find_weight_key, H. reflexivity.
Qed.

(** C3.  On every store the resolver returns, without failing and
    without changing the store, the weights the three-level fallback
    gives: those of the first Weight record scoped to the subject and
    the class name, else those of the first subject-wide record, else
    30, 20, 20, 30.  The result is a function of the weight collection,
    the subject identifier and the class name. *)
Theorem resolve_weight_three_levels s subject_id class_name :
  resolve_weight subject_id class_name (Some s)
  = (inr (spec_resolve_weight (coll_of s "weight") subject_id class_name),
     Some s).
Proof.
  unfold spec_resolve_weight.
  destruct (spec_weight_record (coll_of s "weight") subject_id class_name)
    as [w |] eqn:E.
  - now apply resolve_weight_found.
  - now apply resolve_weight_missing.
Qed.

(** C10.  When a Weight record is resolved, each of the four weights is
    the record's own field if the record has it, whatever it holds, and
    that field's default (tugas 30, kuis 20, uts 20, uas 30) if the
    record lacks it; the fields are defaulted one by one. *)
Theorem weight_defaults_are_per_field s subject_id class_name w :
  spec_weight_record (coll_of s "weight") subject_id class_name = Some w ->
  exists tugas_w kuis_w uts_w uas_w,
    resolve_weight subject_id class_name (Some s)
    = (inr (tugas_w, kuis_w, uts_w, uas_w), Some s) /\
    (forall v, fields w !! "tugas" = Some v -> tugas_w = v) /\
    (fields w !! "tugas" = None -> tugas_w = num 30) /\
    (forall v, fields w !! "kuis" = Some v -> kuis_w = v) /\
    (fields w !! "kuis" = None -> kuis_w = num 20) /\
    (forall v, fields w !! "uts" = Some v -> uts_w = v) /\
    (fields w !! "uts" = None -> uts_w = num 20) /\
    (forall v, fields w !! "uas" = Some v -> uas_w = v) /\
    (fields w !! "uas" = None -> uas_w = num 30).
Proof.
  intros H. rewrite (resolve_weight_found _ _ _ _ H).
  unfold weights_of_record. do 4 eexists. split; [ reflexivity | ].
  repeat split; intros; match goal with E : _ !! _ = _ |- _ => now rewrite E end.
Qed.

(** ** The score aggregator *)

Lemma matches_score_query student_id subject_id t d :
  matches (score_query student_id subject_id t) d
  = score_is student_id subject_id t d.
Proof.
  unfold matches, score_query, score_is. simpl.
  rewrite !field_matches_str by discriminate.
  rewrite andb_true_r, andb_assoc. reflexivity.
Qed.

Lemma find_score_query student_id subject_id t s :
  find "score" (score_query student_id subject_id t) (Some s)
  = (inr (matching_scores s student_id subject_id t), Some s).
Proof.
  rewrite find_run. unfold matching_scores. f_equal. f_equal.
  apply List.filter_ext. intros d. apply matches_score_query.
Qed.

(** *** The mean *)


Lemma Qmake_as_product n d : (n # d == inject_Z n * (1 # d))%Q.
Proof. unfold Qeq, Qmult, inject_Z. simpl. lia. Qed.









Lemma mean_pure data : exists x, forall db, mean data db = (x, db).
Proof.
  unfold mean. destruct (numbers data) as [[| x xs] |]; try (eexists; reflexivity).
  destruct (_sum (x :: xs)); eexists; reflexivity.
Qed.

Lemma mean_numbers data xs db :
  numbers data = Some xs -> xs <> [] -> exists m, mean data db = (inr m, db).
Proof.
  intros Hn Hne. unfold mean. rewrite Hn.
  destruct xs as [| x xs]; [ congruence | ].
  destruct (_sum (x :: xs)); eauto.
Qed.



Lemma coll_of_insert (s : Store) name c : coll_of (<[name := c]> s) name = c.
Proof. unfold coll_of. now rewrite lookup_insert_eq. Qed.

Lemma coll_of_insert_ne (s : Store) name name' c :
  name <> name' -> coll_of (<[name := c]> s) name' = coll_of s name'.
Proof. intros H. unfold coll_of. now rewrite lookup_insert_ne. Qed.

Lemma avg_of_run student_id subject_id t s :
  avg_of student_id subject_id t (Some s)
  = match matching_scores s student_id subject_id t with
    | [] => (inr None, Some s)
    | ds =>
        bind (mean (List.map (fun doc => dict_get (to_dict doc) "value" (num 0)) ds))
             (fun m => ret (Some m)) (Some s)
    end.
Proof.
  unfold avg_of.
  rewrite (bind_inr _ _ _ _ _ (find_score_query _ _ _ _)).
  now destruct (matching_scores s student_id subject_id t).
Qed.


Lemma avg_of_agrees student_id subject_id t s s' :
  matching_scores s student_id subject_id t
  = matching_scores s' student_id subject_id t ->
  (avg_of student_id subject_id t (Some s)).1
  = (avg_of student_id subject_id t (Some s')).1.
Proof.
  intros H. rewrite !avg_of_run, H.
  destruct (matching_scores s' student_id subject_id t) as [| d c];
    [ reflexivity | ].
  destruct (mean_pure
              (List.map (fun doc => dict_get (to_dict doc) "value" (num 0))
                        (d :: c))) as [x Hx].
  unfold bind. rewrite !Hx. now destruct x.
Qed.



(** ** The weight write *)

Lemma model_dump_subject_id p :
  model_dump p !! "subject_id" = Some (VStr (wi_subject_id p)).
Proof. reflexivity. Qed.

Lemma model_dump_class_name p :
  model_dump p !! "class_name" = Some (opt_str (wi_class_name p)).
Proof. reflexivity. Qed.

Lemma set_weight_existing now now' oid p s e :
  List.find (scope_is (wi_subject_id p) (opt_str (wi_class_name p)))
            (coll_of s "weight") = Some e ->
  set_weight now now' oid p (Some s)
  = (inr (written_on_update now p ∪ {["id" := VStr (ObjectId_str (_id e))]}),
     Some (<["weight" := update_first [("_id", VOid (_id e))]
                           (written_on_update now p) (coll_of s "weight")]> s)).
Proof.
  intros H. unfold set_weight, subscript.
  rewrite model_dump_subject_id. unfold dict_get. rewrite model_dump_class_name.
  cbn [default from_option]. unfold id, bind at 1. cbn [ret].
  rewrite (bind_inr _ _ _ _ _ (find_one_run _ _ _)).
  rewrite find_weight_key, H. reflexivity.
Qed.

Lemma set_weight_absent now now' oid p s :
  List.find (scope_is (wi_subject_id p) (opt_str (wi_class_name p)))
            (coll_of s "weight") = None ->
  set_weight now now' oid p (Some s)
  = if existsb (fun d => ObjectId_eqb (_id d) oid) (coll_of s "weight")
    then (inl DuplicateKeyError, Some s)
    else (inr (<["created_at" := VDate now]> (written_on_update now p)
               ∪ {["id" := VStr (ObjectId_str oid)]}),
          Some (<["weight" := (coll_of s "weight"
                               ++ [Document oid (written_on_insert now now' p)])%list]> s)).
Proof.
  intros H. unfold set_weight, subscript.
  rewrite model_dump_subject_id. unfold dict_get. rewrite model_dump_class_name.
  cbn [default from_option]. unfold id, bind at 1. cbn [ret].
  rewrite (bind_inr _ _ _ _ _ (find_one_run _ _ _)).
  rewrite find_weight_key, H.
  unfold create_document, insert_one, bind, get_db, db_collection.
  destruct (existsb _ _); reflexivity.
Qed.

Lemma find_split {A} (f : A -> bool) l e :
  List.find f l = Some e ->
  exists l1 l2, l = (l1 ++ e :: l2)%list /\ f e = true /\ List.find f l1 = None.
Proof.
  induction l as [| a l IH]; simpl; [ discriminate | ].
  destruct (f a) eqn:Ea.
  - intros [= ->]. exists [], l. auto.
  - intros H. destruct (IH H) as (l1 & l2 & -> & He & Hl1).
    exists (a :: l1), l2. simpl. rewrite Ea. auto.
Qed.

Lemma find_none_filter {A} (f : A -> bool) l :
  List.find f l = None -> List.filter f l = [].
Proof.
  induction l as [| a l IH]; simpl; [ reflexivity | ].
  destruct (f a); [ discriminate | exact IH ].
Qed.

Lemma filter_length_middle {A} (f : A -> bool) l1 x l2 :
  List.length (List.filter f (l1 ++ x :: l2))
  = (List.length (List.filter f l1) + (if f x then 1 else 0)
     + List.length (List.filter f l2))%nat.
Proof.
  rewrite List.filter_app, List.length_app. simpl.
  destruct (f x); simpl; lia.
Qed.

Lemma update_first_by_id data l1 e l2 :
  unique_ids (l1 ++ e :: l2) ->
  update_first [("_id", VOid (_id e))] data (l1 ++ e :: l2)
  = (l1 ++ set_fields data e :: l2)%list.
Proof.
  unfold unique_ids.
  induction l1 as [| d l1 IH]; cbn [app update_first List.map]; intros Hnd.
  - rewrite matches_id.
    assert (ObjectId_eqb (_id e) (_id e) = true) as -> by now apply ObjectId_eqb_eq.
    reflexivity.
  - apply NoDup_cons in Hnd as [Hnotin Hnd].
    rewrite matches_id.
    destruct (ObjectId_eqb (_id d) (_id e)) eqn:E.
    + exfalso. apply ObjectId_eqb_eq in E. apply Hnotin.
      apply list_elem_of_In.
      rewrite E, List.map_app. apply List.in_or_app. right. now left.
    + now rewrite IH.
Qed.

Lemma value_eqb_opt_str a b :
  value_eqb (opt_str a) (opt_str b) = true <-> a = b.
Proof.
  destruct a, b; simpl; split; try congruence.
  - intros H. apply String.eqb_eq in H. congruence.
  - intros [= ->]. apply String.eqb_refl.
Qed.

Lemma scope_is_fields subject_id class_name d sid0 cn0 :
  fields d !! "subject_id" = Some (VStr sid0) ->
  fields d !! "class_name" = Some (opt_str cn0) ->
  scope_is subject_id (opt_str class_name) d = true
  <-> subject_id = sid0 /\ class_name = cn0.
Proof.
  intros H1 H2. unfold scope_is, str_field_is. rewrite H1, H2.
  rewrite andb_true_iff, String.eqb_eq, value_eqb_opt_str.
  intuition congruence.
Qed.

Lemma set_fields_lookup data e k v :
  data !! k = Some v -> fields (set_fields data e) !! k = Some v.
Proof. intros H. simpl. now apply lookup_union_Some_l. Qed.

(** C7.  On a weight collection whose documents have distinct [_id]s and
    which has at most one record per (subject_id, class_name) scope, a
    weight write leaves both properties in place and touches no other
    collection.  If a record of the payload's scope exists, that record
    is rewritten where it stands, under its own [_id], which is the
    [id] returned, and no record is added; otherwise one record is
    appended under the generated [_id], which is the [id] returned (the
    store refusing the write if that [_id] is taken). *)
Theorem set_weight_upserts now now' oid p s :
  unique_ids (coll_of s "weight") ->
  at_most_one_per_scope (coll_of s "weight") ->
  exists s',
    (set_weight now now' oid p (Some s)).2 = Some s' /\
    unique_ids (coll_of s' "weight") /\
    at_most_one_per_scope (coll_of s' "weight") /\
    (forall name, name <> "weight" -> coll_of s' name = coll_of s name) /\
    match List.find (scope_is (wi_subject_id p) (opt_str (wi_class_name p)))
                    (coll_of s "weight") with
    | Some e =>
        exists l1 l2 res,
          coll_of s "weight" = (l1 ++ e :: l2)%list /\
          coll_of s' "weight"
          = (l1 ++ Document (_id e) (written_on_update now p ∪ fields e) :: l2)%list /\
          (set_weight now now' oid p (Some s)).1 = inr res /\
          res !! "id" = Some (VStr (ObjectId_str (_id e)))
    | None =>
        if existsb (fun d => ObjectId_eqb (_id d) oid) (coll_of s "weight")
        then s' = s /\
             (set_weight now now' oid p (Some s)).1 = inl DuplicateKeyError
        else exists res,
          coll_of s' "weight"
          = (coll_of s "weight" ++ [Document oid (written_on_insert now now' p)])%list /\
          (set_weight now now' oid p (Some s)).1 = inr res /\
          res !! "id" = Some (VStr (ObjectId_str oid))
    end.
Proof.
  intros Huniq Hone.
  destruct (List.find _ (coll_of s "weight")) as [e |] eqn:Efind.
  - rewrite (set_weight_existing _ _ _ _ _ _ Efind). cbn [fst snd].
    destruct (find_split _ _ _ Efind) as (l1 & l2 & Hc & He & Hl1).
    eexists. split; [ reflexivity | ].
    rewrite coll_of_insert. rewrite Hc in Huniq |- *.
    rewrite (update_first_by_id _ _ _ _ Huniq).
    fold (set_fields (written_on_update now p) e).
    split; [ | split; [ | split ] ].
    + unfold unique_ids in *. rewrite List.map_app in *. exact Huniq.
    + intros sid cn. specialize (Hone sid cn). rewrite Hc in Hone.
      rewrite filter_length_middle in *.
      destruct (scope_is sid (opt_str cn) (set_fields _ e)) eqn:Enew;
        [ | destruct (scope_is sid (opt_str cn) e); lia ].
      apply (scope_is_fields _ _ _ (wi_subject_id p) (wi_class_name p)) in Enew
        as [-> ->]; [ | now apply set_fields_lookup .. ].
      rewrite He in Hone. exact Hone.
    + intros name Hne. now apply coll_of_insert_ne.
    + exists l1, l2. eexists. repeat split.
  - rewrite (set_weight_absent _ _ _ _ _ Efind).
    destruct (existsb _ (coll_of s "weight")) eqn:Eex; cbn [fst snd].
    + exists s. repeat split; assumption.
    + eexists. split; [ reflexivity | ]. rewrite coll_of_insert.
      split; [ | split; [ | split ] ].
      * unfold unique_ids in *. rewrite List.map_app. simpl.
        apply NoDup_app. split; [ exact Huniq | ].
        split; [ | apply NoDup_singleton ].
        intros o Ho Ho'. apply list_elem_of_singleton in Ho'. subst o.
        apply list_elem_of_In, List.in_map_iff in Ho as (d & Hd & Hin).
        assert (existsb (fun d => ObjectId_eqb (_id d) oid) (coll_of s "weight") = true)
          as Hex by (apply List.existsb_exists; exists d; split;
                     [ exact Hin | now apply ObjectId_eqb_eq ]).
        congruence.
      * intros sid cn. specialize (Hone sid cn).
        rewrite List.filter_app, List.length_app. simpl.
        destruct (scope_is sid (opt_str cn) (Document oid _)) eqn:Enew;
          simpl; [ | lia ].
        apply (scope_is_fields _ _ _ (wi_subject_id p) (wi_class_name p)) in Enew
          as [-> ->]; [ | reflexivity .. ].
        rewrite (find_none_filter _ _ Efind). simpl. lia.
      * intros name Hne. now apply coll_of_insert_ne.
      * eexists. repeat split.
Qed.

(** * Instances on the example stores *)

Lemma ex_report_run s :
  (generate_report no_float ex_student_id ex_subject_id (Some s)).1
  = inr (ex_report s) ->
  generate_report no_float ex_student_id ex_subject_id (Some s)
  = (inr (ex_report s), Some s).
Proof.
  intros H.
  pose proof (read_only_generate_report no_float ex_student_id ex_subject_id
                (Some s)) as Hro.
  destruct (generate_report no_float ex_student_id ex_subject_id (Some s))
    as [o d]. simpl in *. now subst.
Qed.


(** C1 as stated fails.  The Weight record of the class holds an
    infinite percentage for tugas and the student has no tugas score:
    the report succeeds, the tugas entry has no average, and its
    weighted score is [0.0 * (inf / 100.0)], a NaN and not 0; the final
    score is a NaN as well. *)
Lemma missing_type_with_infinite_weight_counterexample :
  exists r c,
    generate_report no_float ex_student_id ex_subject_id
      (Some (ex_store [ex_score 0 "kuis" 70] [ex_weight_inf]))
    = (inr r, Some (ex_store [ex_score 0 "kuis" 70] [ex_weight_inf])) /\
    avg_of ex_student_id ex_subject_id "tugas"
      (Some (ex_store [ex_score 0 "kuis" 70] [ex_weight_inf]))
    = (inr None, Some (ex_store [ex_score 0 "kuis" 70] [ex_weight_inf])) /\
    List.head (r_components r) = Some c /\
    c_type c = "tugas" /\ c_average c = None /\
    c_weighted_score c = S754_nan /\
    (c_weighted_score c == float_zero)%fl = false /\
    unrounded_final r = S754_nan.
Proof.
  eexists. eexists.
  split; [ apply ex_report_run; vm_compute; reflexivity | ].
  split; [ vm_compute; reflexivity | ].
  split; [ vm_compute; reflexivity | ].
  repeat split; vm_compute; reflexivity.
Qed.

(** C2 as stated fails.  The scores are 53, 81, 74 and 77 and the
    weights are the defaults, so the final score is
    69.99999999999999: the verdict is "Belum Tuntas", while the reported
    [final_score] is 70.0, not below the kkm of 70. *)
Lemma verdict_vs_reported_score_counterexample :
  exists r,
    generate_report no_float ex_student_id ex_subject_id
      (Some (ex_store ex_scores_near []))
    = (inr r, Some (ex_store ex_scores_near [])) /\
    r_final_score r = float_of_int 70 /\
    r_subject_kkm r = float_of_int 70 /\
    r_status r = "Belum Tuntas" /\
    ~ (r_status r = "Tuntas"
       <-> (r_subject_kkm r <= r_final_score r)%fl = true).
Proof.
  exists (ex_report (ex_store ex_scores_near [])).
  split; [ apply ex_report_run; vm_compute; reflexivity | ].
  split; [ vm_compute; reflexivity | ].
  split; [ vm_compute; reflexivity | ].
  split; [ vm_compute; reflexivity | ].
  intros [_ H].
  assert (Hle : (r_subject_kkm (ex_report (ex_store ex_scores_near []))
                 <= r_final_score (ex_report (ex_store ex_scores_near [])))%fl
                = true) by (vm_compute; reflexivity).
  specialize (H Hle). clear Hle. vm_compute in H. discriminate H.
Qed.

Lemma verdict_compares_unrounded_final_witness :
  generate_report no_float ex_student_id ex_subject_id
    (Some (ex_store ex_scores_near []))
  = (inr (ex_report (ex_store ex_scores_near [])),
     Some (ex_store ex_scores_near [])) /\
  unrounded_final (ex_report (ex_store ex_scores_near []))
  = int_truediv 6999999999999999 100000000000000 /\
  (r_status (ex_report (ex_store ex_scores_near [])) = "Belum Tuntas"
   <-> (unrounded_final (ex_report (ex_store ex_scores_near []))
        < r_subject_kkm (ex_report (ex_store ex_scores_near [])))%fl = true).
Proof.
  assert (Hrun : generate_report no_float ex_student_id ex_subject_id
                   (Some (ex_store ex_scores_near []))
                 = (inr (ex_report (ex_store ex_scores_near [])),
                    Some (ex_store ex_scores_near [])))
    by (apply ex_report_run; vm_compute; reflexivity).
  split; [ exact Hrun | ]. split; [ vm_compute; reflexivity | ].
  apply (proj1 (proj2 (proj2
           (verdict_compares_unrounded_final _ _ _ _ _ _ Hrun)))).
  - vm_compute. reflexivity.
  - vm_compute. reflexivity.
Defined.

Lemma zero_total_weight_is_rejected_witness :
  generate_report no_float ex_student_id ex_subject_id
    (Some (ex_store ex_scores_partial [ex_weight_zero]))
  = (inl (HTTPException 400 "Semua bobot 0"),
     Some (ex_store ex_scores_partial [ex_weight_zero])).
Proof.
  apply (zero_total_weight_is_rejected no_float
           (ex_store ex_scores_partial [ex_weight_zero])
           ex_student_id ex_subject_id
           (_to_str_id ex_student) (_to_str_id ex_subject)
           (float_of_int 0) (float_of_int 0) (float_of_int 0) (float_of_int 0)).
  - vm_compute. reflexivity.
  - vm_compute. reflexivity.
  - vm_compute. reflexivity.
  - vm_compute. reflexivity.
Defined.


Lemma unresolved_reference_is_not_found_witness :
  generate_report no_float "not-an-object-id" ex_subject_id
    (Some (ex_store ex_scores_partial []))
  = (inl (HTTPException 404 "Siswa atau mapel tidak ditemukan"),
     Some (ex_store ex_scores_partial [])) /\
  generate_report no_float ex_student_id "ffffffffffffffffffffffff"
    (Some (ex_store ex_scores_partial []))
  = (inl (HTTPException 404 "Siswa atau mapel tidak ditemukan"),
     Some (ex_store ex_scores_partial [])).
Proof.
  split; apply unresolved_reference_is_not_found.
  - left. intros (o & d & Hp & _). vm_compute in Hp. discriminate.
  - right. intros (o & d & Hp & Hin & Hid).
    vm_compute in Hp. injection Hp as <-.
    vm_compute in Hin. destruct Hin as [<- | []].
    vm_compute in Hid. discriminate.
Defined.

Lemma set_weight_upserts_witness :
  unique_ids [ex_weight_zero] /\
  at_most_one_per_scope [ex_weight_zero] /\
  exists s',
    (set_weight 5%Z 6%Z (Oid "999999999999999999999999") ex_payload
       (Some (ex_store [] [ex_weight_zero]))).2 = Some s' /\
    List.map _id (coll_of s' "weight") = [_id ex_weight_zero] /\
    at_most_one_per_scope (coll_of s' "weight").
Proof.
  assert (Hu : unique_ids (coll_of (ex_store [] [ex_weight_zero]) "weight"))
    by (vm_compute; apply NoDup_singleton).
  assert (Ho : at_most_one_per_scope (coll_of (ex_store [] [ex_weight_zero]) "weight")).
  { intros sid cn. change (coll_of _ "weight") with [ex_weight_zero].
    cbn [List.filter]. destruct (scope_is _ _ _); simpl; lia. }
  split; [ exact Hu | ]. split; [ exact Ho | ].
  destruct (set_weight_upserts 5%Z 6%Z (Oid "999999999999999999999999") ex_payload
              (ex_store [] [ex_weight_zero]) Hu Ho)
    as (s' & Hs' & _ & Hone & _ & Hcase).
  exists s'. split; [ exact Hs' | ]. split; [ | exact Hone ].
  change (List.find _ _) with (Some ex_weight_zero) in Hcase.
  destruct Hcase as (l1 & l2 & res & Hc & Hc' & _).
  rewrite Hc'. change (coll_of _ "weight") with [ex_weight_zero] in Hc.
  rewrite !List.map_app. simpl.
  apply (f_equal (List.map _id)) in Hc. rewrite List.map_app in Hc. simpl in Hc.
  symmetry. exact Hc.
Defined.

(** C8 as stated fails.  Every score is 100 and the percentages are
    1e308, 1e308, 0 and 0: the two weighted scores are 1e308 each, their
    sum overflows, and the reported [final_score] is the infinity, not
    a number with two decimals. *)
Lemma final_score_infinite_counterexample :
  exists r,
    generate_report no_float ex_student_id ex_subject_id
      (Some (ex_store (ex_scores_all 100) [ex_weight_huge]))
    = (inr r, Some (ex_store (ex_scores_all 100) [ex_weight_huge])) /\
    r_final_score r = S754_infinity false /\
    is_finite (r_final_score r) = false.
Proof.
  exists (ex_report (ex_store (ex_scores_all 100) [ex_weight_huge])).
  split; [ apply ex_report_run; vm_compute; reflexivity | ].
  split; vm_compute; reflexivity.
Qed.


Lemma weight_defaults_are_per_field_witness :
  resolve_weight ex_subject_id (VStr "VIIA")
    (Some (ex_store [] [ex_weight_partial]))
  = (inr (num 50, num 20, num 20, num 30),
     Some (ex_store [] [ex_weight_partial])).
Proof.
  destruct (weight_defaults_are_per_field (ex_store [] [ex_weight_partial])
              ex_subject_id (VStr "VIIA") ex_weight_partial eq_refl)
    as (t & k & u & a & Hrun & Ht & _ & _ & Hk & _ & Hu & _ & Ha).
  rewrite Hrun.
  rewrite (Ht (num 50) eq_refl), (Hk eq_refl), (Hu eq_refl), (Ha eq_refl).
  reflexivity.
Defined.

Lemma generate_report_writes_nothing_witness :
  (generate_report no_float ex_student_id ex_subject_id
     (Some (ex_store ex_scores_partial [ex_weight_zero]))).2
  = Some (ex_store ex_scores_partial [ex_weight_zero]) /\
  payload_of
    (generate_report no_float ex_student_id ex_subject_id
       (Some (ex_store ex_scores_partial [ex_weight_zero]))).1
  = None.
Proof.
  destruct (generate_report_writes_nothing no_float ex_student_id ex_subject_id
              (Some (ex_store ex_scores_partial [ex_weight_zero])))
    as [Hstore Hfail].
  split; [ exact Hstore | ].
  apply (Hfail (HTTPException 400 "Semua bobot 0")).
  vm_compute. reflexivity.
Defined.

(** The scenarios of the specification. *)

Example scenario_missing_midterm :
  r_final_score (ex_report (ex_store ex_scores_partial [])) = int_truediv 605 10 /\
  r_status (ex_report (ex_store ex_scores_partial [])) = "Belum Tuntas".
Proof. split; vm_compute; reflexivity. Qed.

Example scenario_all_ninety :
  r_final_score (ex_report (ex_store (ex_scores_all 90) [])) = float_of_int 90 /\
  r_status (ex_report (ex_store (ex_scores_all 90) [])) = "Tuntas".
Proof. split; vm_compute; reflexivity. Qed.

Example scenario_final_equals_kkm :
  unrounded_final (ex_report (ex_store (ex_scores_all 70) []))
  = r_subject_kkm (ex_report (ex_store (ex_scores_all 70) [])) /\
  r_status (ex_report (ex_store (ex_scores_all 70) [])) = "Tuntas".
Proof. split; vm_compute; reflexivity. Qed.

(** A single tugas score of 80.25 with the default weights: the product
    [80.25 * (30 / 100.0)] falls just below 24.075 and is reported as
    24.07. *)
Example scenario_rounding_below_the_tie :
  r_final_score
    (ex_report
       (ex_store [Document (Oid "cccccccccccccccccccccc00")
                    (<["student_id" := VStr ex_student_id]>
                     (<["subject_id" := VStr ex_subject_id]>
                     (<["type" := VStr "tugas"]>
                     (<["value" := VNum (int_truediv 321 4)]> ∅))))] []))
  = int_truediv 2407 100.
Proof. vm_compute. reflexivity. Qed.

(** Percentages whose exact sum is 0 but whose sum as doubles, taken
    from left to right, is -1.0: the report is not rejected. *)
Example scenario_cancelling_weights :
  (total_of (float_of_int (2 ^ 53)) (float_of_int 1)
            (float_of_int (- 2 ^ 53)) (float_of_int (- 1)))
  = float_of_int (- 1) /\
  generate_report no_float ex_student_id ex_subject_id
    (Some (ex_store ex_scores_partial [ex_weight_cancel]))
  = (inr (ex_report (ex_store ex_scores_partial [ex_weight_cancel])),
     Some (ex_store ex_scores_partial [ex_weight_cancel])).
Proof.
  split; [ vm_compute; reflexivity | ].
  apply ex_report_run. vm_compute. reflexivity.
Qed.

Example scenario_no_weight_record :
  (resolve_weight ex_subject_id (VStr "VIIA") (Some (ex_store [] []))).1
  = inr hardcoded_weights.
Proof. reflexivity. Qed.

Example scenario_subject_wide_record :
  (resolve_weight ex_subject_id (VStr "VIIA")
     (Some (ex_store []
        [Document (Oid "dddddddddddddddddddddddd")
           (model_dump ex_payload_wide)]))).1
  = inr (num 40, num 10, num 20, num 30).
Proof. vm_compute. reflexivity. Qed.

Example scenario_class_record_first :
  (resolve_weight ex_subject_id (VStr "VIIA")
     (Some (ex_store []
        [Document (Oid "dddddddddddddddddddddddd")
           (model_dump ex_payload_wide);
         Document (Oid "eeeeeeeeeeeeeeeeeeeeeeee")
           (model_dump ex_payload)]))).1
  = inr (num 25, num 25, num 25, num 25).
Proof. vm_compute. reflexivity. Qed.

Example scenario_uninitialised_db :
  generate_report no_float ex_student_id ex_subject_id None
  = (inl (RuntimeError "Database not initialized"), None).
Proof. reflexivity. Qed.

(** * Further properties of the store layer *)

Lemma to_str_id_lookup_id doc :
  _to_str_id doc !! "id" = Some (VStr (ObjectId_str (_id doc))).
Proof.
  unfold _to_str_id. rewrite lookup_delete_ne by discriminate.
  apply lookup_insert_eq.
Qed.

Lemma to_str_id_lookup__id doc : _to_str_id doc !! "_id" = None.
Proof. unfold _to_str_id. apply lookup_delete_eq. Qed.

Lemma to_str_id_lookup_other doc k :
  k <> "id" -> k <> "_id" -> _to_str_id doc !! k = fields doc !! k.
Proof.
  intros H1 H2. unfold _to_str_id, to_dict.
  rewrite lookup_delete_ne by congruence.
  rewrite lookup_insert_ne by congruence.
  now rewrite lookup_insert_ne by congruence.
Qed.

(** X1.  A document that [get_document_by_id] finds is handed out with
    its identifier as a string under [id] (the parsed form of the
    requested one), without [_id], and with every other field as it is
    stored. *)
Theorem get_document_by_id_found s name doc_id d :
  get_document_by_id name doc_id (Some s) = (inr (Some d), Some s) ->
  exists o doc,
    ObjectId_parse doc_id = Some o /\ In doc (coll_of s name) /\ _id doc = o /\
    d !! "id" = Some (VStr (ObjectId_str o)) /\
    d !! "_id" = None /\
    (forall k, k <> "id" -> k <> "_id" -> d !! k = fields doc !! k).
Proof.
  rewrite get_document_by_id_run. intros [= H].
  unfold document_by_id in H.
  destruct (ObjectId_parse doc_id) as [o |]; [ | discriminate ].
  destruct (List.find _ _) as [doc |] eqn:Hf; [ | discriminate ].
  injection H as <-.
  apply List.find_some in Hf as [Hin Hm].
  rewrite matches_id in Hm. apply ObjectId_eqb_eq in Hm.
  exists o, doc. rewrite <- Hm.
  repeat split; auto using to_str_id_lookup_id, to_str_id_lookup__id,
    to_str_id_lookup_other.
Qed.

(** X2.  [get_document_by_id] raises only when [db] is [None], and then
    the [RuntimeError] of its guard: on an initialised store a malformed
    or unknown identifier gives [None], never an exception. *)
Theorem get_document_by_id_raises_iff name doc_id db e :
  (get_document_by_id name doc_id db).1 = inl e
  <-> db = None /\ e = RuntimeError "Database not initialized".
Proof.
  destruct db as [s |].
  - rewrite get_document_by_id_run. simpl. split; [ discriminate | ].
    intros [H _]. discriminate.
  - rewrite get_document_by_id_None. simpl. split.
    + intros [= <-]. auto.
    + intros [_ ->]. reflexivity.
Qed.

Lemma existsb_id_false c oid :
  existsb (fun d => ObjectId_eqb (_id d) oid) c = false ->
  List.find (matches [("_id", VOid oid)]) c = None.
Proof.
  induction c as [| d c IH]; cbn [existsb List.find]; [ reflexivity | ].
  intros H. apply orb_false_iff in H as [Hd Hc].
  rewrite matches_id, Hd. auto.
Qed.

Lemma find_app_none {A} (f : A -> bool) l1 l2 :
  List.find f l1 = None -> List.find f (l1 ++ l2) = List.find f l2.
Proof.
  induction l1 as [| a l1 IH]; simpl; [ reflexivity | ].
  destruct (f a); [ discriminate | exact IH ].
Qed.

Lemma find_id_self o flds :
  List.find (matches [("_id", VOid o)]) [Document o flds] = Some (Document o flds).
Proof.
  cbn [List.find]. rewrite matches_id. simpl.
  assert (ObjectId_eqb o o = true) as -> by now apply ObjectId_eqb_eq.
  reflexivity.
Qed.

Lemma create_document_run now oid name data s :
  create_document now oid name data (Some s)
  = if existsb (fun d => ObjectId_eqb (_id d) oid) (coll_of s name)
    then (inl DuplicateKeyError, Some s)
    else (inr (ObjectId_str oid),
          Some (<[name := (coll_of s name ++ [Document oid (stamped now data)])%list]> s)).
Proof.
  unfold create_document, insert_one, bind, get_db, db_collection, stamped.
  destruct (existsb _ _); reflexivity.
Qed.

(** X3.  Insert then look up.  When the generated identifier is a
    well-formed [ObjectId] that no document of the collection carries,
    [create_document] returns it as a string, and [get_document_by_id]
    with that string then finds the document: [id] is the string,
    [updated_at] is the clock reading, [created_at] is the caller's if
    given and the clock reading otherwise, and every other field is the
    caller's. *)
Theorem create_then_get now oid name data s :
  ObjectId_parse (ObjectId_str oid) = Some oid ->
  existsb (fun d => ObjectId_eqb (_id d) oid) (coll_of s name) = false ->
  exists s' d,
    create_document now oid name data (Some s) = (inr (ObjectId_str oid), Some s') /\
    get_document_by_id name (ObjectId_str oid) (Some s') = (inr (Some d), Some s') /\
    d !! "id" = Some (VStr (ObjectId_str oid)) /\
    d !! "updated_at" = Some (VDate now) /\
    d !! "created_at" = Some (default (VDate now) (data !! "created_at")) /\
    (forall k, k <> "id" -> k <> "_id" -> k <> "updated_at" -> k <> "created_at" ->
               d !! k = data !! k).
Proof.
  intros Hp Hfresh. rewrite create_document_run, Hfresh.
  eexists. eexists. split; [ reflexivity | ].
  rewrite get_document_by_id_run. unfold document_by_id.
  rewrite Hp, coll_of_insert.
  rewrite (find_app_none _ _ _ (existsb_id_false _ _ Hfresh)), find_id_self.
  split; [ reflexivity | ]. cbn [option_map].
  split; [ apply to_str_id_lookup_id | ].
  split; [ | split ].
  - rewrite to_str_id_lookup_other by discriminate. apply lookup_insert_eq.
  - rewrite to_str_id_lookup_other by discriminate. simpl. unfold stamped.
    rewrite lookup_insert_ne by discriminate.
    destruct (data !! "created_at") as [v |] eqn:E; simpl.
    + exact E.
    + apply lookup_insert_eq.
  - intros k H1 H2 H3 H4. rewrite to_str_id_lookup_other by assumption.
    simpl. unfold stamped. rewrite lookup_insert_ne by congruence.
    destruct (data !! "created_at"); [ reflexivity | ].
    now rewrite lookup_insert_ne by congruence.
Qed.

Lemma unique_ids_not_elsewhere l1 e l2 :
  unique_ids (l1 ++ e :: l2) ->
  existsb (fun d => ObjectId_eqb (_id d) (_id e)) (l1 ++ l2) = false.
Proof.
  unfold unique_ids. rewrite List.map_app. cbn [List.map]. intros Hnd.
  destruct (existsb _ _) eqn:E; [ exfalso | reflexivity ].
  apply List.existsb_exists in E as (d & Hin & Hd).
  apply ObjectId_eqb_eq in Hd.
  apply NoDup_app in Hnd as (Hnd1 & Hdisj & Hnd2).
  apply NoDup_cons in Hnd2 as [Hnotin Hnd2].
  apply List.in_app_or in Hin as [Hin | Hin].
  - apply (Hdisj (_id e)).
    + apply list_elem_of_In. rewrite <- Hd. now apply List.in_map.
    + left.
  - apply Hnotin. apply list_elem_of_In. rewrite <- Hd. now apply List.in_map.
Qed.

Lemma find_by_id_unique l1 e l2 :
  unique_ids (l1 ++ e :: l2) ->
  List.find (matches [("_id", VOid (_id e))]) (l1 ++ e :: l2) = Some e.
Proof.
  intros Hu. pose proof (unique_ids_not_elsewhere _ _ _ Hu) as Hex.
  rewrite List.existsb_app in Hex. apply orb_false_iff in Hex as [H1 _].
  rewrite (find_app_none _ _ _ (existsb_id_false _ _ H1)).
  cbn [List.find]. rewrite matches_id.
  assert (ObjectId_eqb (_id e) (_id e) = true) as -> by now apply ObjectId_eqb_eq.
  reflexivity.
Qed.

Lemma remove_first_by_id l1 e l2 :
  unique_ids (l1 ++ e :: l2) ->
  remove_first [("_id", VOid (_id e))] (l1 ++ e :: l2) = (l1 ++ l2)%list.
Proof.
  intros Hu. pose proof (unique_ids_not_elsewhere _ _ _ Hu) as Hex.
  rewrite List.existsb_app in Hex. apply orb_false_iff in Hex as [H1 _].
  clear Hu. induction l1 as [| d l1 IH]; cbn [app remove_first].
  - rewrite matches_id.
    assert (ObjectId_eqb (_id e) (_id e) = true) as -> by now apply ObjectId_eqb_eq.
    reflexivity.
  - cbn [existsb] in H1. apply orb_false_iff in H1 as [Hd H1].
    rewrite matches_id, Hd, IH by assumption. reflexivity.
Qed.

Lemma find_by_other_id o l1 e l2 :
  _id e <> o ->
  List.find (matches [("_id", VOid o)]) (l1 ++ e :: l2)
  = List.find (matches [("_id", VOid o)]) (l1 ++ l2).
Proof.
  intros Hne. induction l1 as [| d l1 IH]; cbn [app List.find].
  - rewrite matches_id.
    destruct (ObjectId_eqb (_id e) o) eqn:E; [ | reflexivity ].
    apply ObjectId_eqb_eq in E. contradiction.
  - destruct (matches _ d); [ reflexivity | exact IH ].
Qed.

Lemma delete_document_run name doc_id s :
  delete_document name doc_id (Some s)
  = match ObjectId_parse doc_id with
    | None => (inl InvalidId, Some s)
    | Some o =>
        match List.find (matches [("_id", VOid o)]) (coll_of s name) with
        | None => (inr false, Some s)
        | Some _ =>
            (inr true,
             Some (<[name := remove_first [("_id", VOid o)] (coll_of s name)]> s))
        end
    end.
Proof.
  unfold delete_document, ObjectId_of_str, delete_one, bind, get_db,
    db_collection, put_collection.
  destruct (ObjectId_parse doc_id) as [o |]; [ | reflexivity ].
  cbn. destruct (List.find _ _); reflexivity.
Qed.

(** X4.  Deleting a stored document.  In a collection with distinct
    [_id]s, [delete_document] with the identifier of a stored document
    returns [True] and removes that document and no other: the
    identifier no longer resolves, every other identifier resolves as
    before, and the other collections are untouched. *)
Theorem delete_document_removes name doc_id s o l1 e l2 :
  unique_ids (coll_of s name) ->
  ObjectId_parse doc_id = Some o ->
  coll_of s name = (l1 ++ e :: l2)%list ->
  _id e = o ->
  exists s',
    delete_document name doc_id (Some s) = (inr true, Some s') /\
    coll_of s' name = (l1 ++ l2)%list /\
    get_document_by_id name doc_id (Some s') = (inr None, Some s') /\
    (forall other o', ObjectId_parse other = Some o' -> o' <> o ->
       document_by_id s' name other = document_by_id s name other) /\
    (forall name', name <> name' -> coll_of s' name' = coll_of s name').
Proof.
  intros Hu Hp Hc <-. rewrite Hc in Hu.
  rewrite delete_document_run, Hp, Hc, (find_by_id_unique _ _ _ Hu),
    (remove_first_by_id _ _ _ Hu).
  eexists. split; [ reflexivity | ].
  rewrite coll_of_insert. split; [ reflexivity | ].
  split; [ | split ].
  - rewrite get_document_by_id_run. unfold document_by_id.
    rewrite Hp, coll_of_insert.
    now rewrite (existsb_id_false _ _ (unique_ids_not_elsewhere _ _ _ Hu)).
  - intros other o' Ho' Hne. unfold document_by_id.
    rewrite Ho', coll_of_insert, Hc.
    rewrite find_by_other_id by congruence. reflexivity.
  - intros name' Hne. now apply coll_of_insert_ne.
Qed.

(** X5.  Deleting what is not there.  With a malformed identifier
    [delete_document] raises [InvalidId] (it has no [try] around
    [ObjectId], unlike [get_document_by_id]); with a well-formed
    identifier that no document carries it returns [False].  The store
    is unchanged in both cases. *)
Theorem delete_document_misses name doc_id s :
  (ObjectId_parse doc_id = None ->
   delete_document name doc_id (Some s) = (inl InvalidId, Some s)) /\
  (forall o, ObjectId_parse doc_id = Some o ->
     existsb (fun d => ObjectId_eqb (_id d) o) (coll_of s name) = false ->
     delete_document name doc_id (Some s) = (inr false, Some s)).
Proof.
  split.
  - intros Hp. now rewrite delete_document_run, Hp.
  - intros o Hp Hex.
    now rewrite delete_document_run, Hp, (existsb_id_false _ _ Hex).
Qed.

Lemma update_document_run now name doc_id updates s :
  update_document now name doc_id updates (Some s)
  = match ObjectId_parse doc_id with
    | None => (inl InvalidId, Some s)
    | Some o =>
        let data := <["updated_at" := VDate now]> updates in
        (inr match List.find (matches [("_id", VOid o)]) (coll_of s name) with
             | None => false
             | Some d => changed_by data d
             end,
         Some (<[name := update_first [("_id", VOid o)] data (coll_of s name)]> s))
    end.
Proof.
  unfold update_document, ObjectId_of_str, update_one_result, update_one, bind,
    get_db, db_collection, put_collection.
  destruct (ObjectId_parse doc_id) as [o |]; [ | reflexivity ].
  cbn. destruct (List.find _ _) as [d |]; [ | reflexivity ].
  cbn. destruct (changed_by _ d); reflexivity.
Qed.

Lemma update_first_no_match q data c :
  List.find (matches q) c = None -> update_first q data c = c.
Proof.
  induction c as [| d c IH]; cbn [List.find update_first]; [ reflexivity | ].
  destruct (matches q d); [ discriminate | ].
  intros H. now rewrite IH.
Qed.

Lemma value_eqb_date x t : value_eqb x (VDate t) = true -> x = VDate t.
Proof.
  destruct x; simpl; try discriminate.
  intros H. apply Z.eqb_eq in H. now subst.
Qed.

Lemma changed_by_stale now updates d :
  fields d !! "updated_at" <> Some (VDate now) ->
  changed_by (<["updated_at" := VDate now]> updates) d = true.
Proof.
  intros Hne. unfold changed_by. apply negb_true_iff, bool_decide_eq_false.
  intros Hall.
  specialize (Hall "updated_at" (VDate now) (lookup_insert_eq _ _ _)).
  unfold field_unchanged in Hall.
  destruct (fields d !! "updated_at") as [x |]; [ | discriminate ].
  apply value_eqb_date in Hall. congruence.
Qed.

(** X6.  Updating a stored document.  In a collection with distinct
    [_id]s, [update_document] with the identifier of a stored document
    and fields that do not name [_id] (which the store would refuse)
    rewrites that document where it stands: it keeps its [_id], takes
    the given fields and [updated_at] = the clock reading, and keeps its
    other fields; the documents around it are untouched.  The result is
    [True] whenever the stored [updated_at] was not already that clock
    reading. *)
Theorem update_document_updates now name doc_id updates s o l1 e l2 :
  updates !! "_id" = None ->
  unique_ids (coll_of s name) ->
  ObjectId_parse doc_id = Some o ->
  coll_of s name = (l1 ++ e :: l2)%list ->
  _id e = o ->
  exists s' res e',
    update_document now name doc_id updates (Some s) = (inr res, Some s') /\
    coll_of s' name = (l1 ++ e' :: l2)%list /\
    _id e' = _id e /\
    fields e' !! "updated_at" = Some (VDate now) /\
    (forall k v, k <> "updated_at" -> updates !! k = Some v ->
                 fields e' !! k = Some v) /\
    (forall k, k <> "updated_at" -> updates !! k = None ->
               fields e' !! k = fields e !! k) /\
    (fields e !! "updated_at" <> Some (VDate now) -> res = true).
Proof.
  intros _ Hu Hp Hc <-. rewrite Hc in Hu.
  rewrite update_document_run, Hp, Hc. cbn zeta.
  rewrite (find_by_id_unique _ _ _ Hu), (update_first_by_id _ _ _ _ Hu).
  eexists. eexists. eexists. split; [ reflexivity | ].
  rewrite coll_of_insert. split; [ reflexivity | ].
  split; [ reflexivity | ]. split; [ | split; [ | split ] ].
  - apply set_fields_lookup, lookup_insert_eq.
  - intros k v Hk Hv. apply set_fields_lookup.
    now rewrite lookup_insert_ne by congruence.
  - intros k Hk Hv. simpl. apply lookup_union_r.
    now rewrite lookup_insert_ne by congruence.
  - apply changed_by_stale.
Qed.

(** X7.  Updating what is not there.  With a malformed identifier
    [update_document] raises [InvalidId] and leaves the store as it is;
    with a well-formed identifier that no document carries it returns
    [False] and every collection holds the documents it held. *)
Theorem update_document_misses now name doc_id updates s :
  (ObjectId_parse doc_id = None ->
   update_document now name doc_id updates (Some s) = (inl InvalidId, Some s)) /\
  (forall o, ObjectId_parse doc_id = Some o ->
     existsb (fun d => ObjectId_eqb (_id d) o) (coll_of s name) = false ->
     exists s',
       update_document now name doc_id updates (Some s) = (inr false, Some s') /\
       forall name', coll_of s' name' = coll_of s name').
Proof.
  split.
  - intros Hp. now rewrite update_document_run, Hp.
  - intros o Hp Hex. rewrite update_document_run, Hp. cbn zeta.
    pose proof (existsb_id_false _ _ Hex) as Hf. rewrite Hf.
    rewrite (update_first_no_match _ _ _ Hf).
    eexists. split; [ reflexivity | ].
    intros name'. destruct (decide (name = name')) as [<- | Hne].
    + apply coll_of_insert.
    + now apply coll_of_insert_ne.
Qed.

Lemma get_documents_run name flt limit s :
  get_documents name flt limit (Some s)
  = (inr (List.map _to_str_id
            (apply_limit limit
               (List.filter (matches (default [] flt)) (coll_of s name)))),
     Some s).
Proof. reflexivity. Qed.

Lemma apply_limit_length {A} limit (l : list A) :
  (0 < limit)%nat -> (List.length (apply_limit limit l) <= limit)%nat.
Proof.
  destruct limit; [ lia | ]. intros _. unfold apply_limit.
  rewrite List.length_firstn. lia.
Qed.

Lemma apply_limit_all {A} limit (l : list A) :
  limit = 0%nat \/ (List.length l <= limit)%nat -> apply_limit limit l = l.
Proof.
  destruct limit; [ reflexivity | ]. intros [H | H]; [ discriminate | ].
  unfold apply_limit. now apply List.firstn_all2.
Qed.

Lemma apply_limit_In {A} limit (l : list A) x :
  In x (apply_limit limit l) -> In x l.
Proof.
  destruct limit; [ auto | ]. unfold apply_limit.
  intros H. rewrite <- (List.firstn_skipn (S limit) l).
  apply List.in_or_app. now left.
Qed.

(** X8.  Listing.  On an initialised store [get_documents] never raises
    and never writes.  With a positive limit it returns at most that
    many dicts; each one is a stored document that matches the filter,
    with [id] in place of [_id]; and when the limit is 0 or is not
    exceeded, every matching document is returned. *)
Theorem get_documents_lists name flt limit s :
  exists rs,
    get_documents name flt limit (Some s) = (inr rs, Some s) /\
    ((0 < limit)%nat -> (List.length rs <= limit)%nat) /\
    (forall d, In d rs ->
       exists doc, In doc (coll_of s name) /\
                   matches (default [] flt) doc = true /\
                   d = _to_str_id doc /\
                   d !! "id" = Some (VStr (ObjectId_str (_id doc))) /\
                   d !! "_id" = None) /\
    (limit = 0%nat \/
     (List.length (List.filter (matches (default [] flt)) (coll_of s name))
      <= limit)%nat ->
     rs = List.map _to_str_id
            (List.filter (matches (default [] flt)) (coll_of s name))).
Proof.
  eexists. split; [ apply get_documents_run | ].
  split; [ | split ].
  - intros Hl. rewrite List.length_map. now apply apply_limit_length.
  - intros d Hd. apply List.in_map_iff in Hd as (doc & <- & Hin).
    apply apply_limit_In, List.filter_In in Hin as [Hin Hm].
    exists doc. auto using to_str_id_lookup_id, to_str_id_lookup__id.
  - intros H. now rewrite apply_limit_all.
Qed.

Lemma matches_app (q1 q2 : query) d :
  matches (q1 ++ q2)%list d = matches q1 d && matches q2 d.
Proof. unfold matches. apply List.forallb_app. Qed.

Lemma matches_filter_on_str k x d :
  k <> "_id" -> matches (filter_on k (Some x)) d = str_field_is d k x.
Proof.
  intros Hk. unfold matches, filter_on. cbn [forallb].
  rewrite field_matches_str by assumption. apply andb_true_r.
Qed.

(** X9.  [list_weights] and the class scope.  An empty [subject_id] is
    treated as none at all.  With a [subject_id] and [class_name] left
    out, a Weight record of that subject is listed whatever its class
    scope, class-specific or subject-wide (as long as the subject has at
    most 200 records): leaving [class_name] out does not select the
    subject-wide record. *)
Theorem list_weights_ignores_class_scope s subject_id class_name doc :
  list_weights (Some "") class_name (Some s)
  = list_weights None class_name (Some s) /\
  (subject_id <> "" ->
   In doc (coll_of s "weight") ->
   str_field_is doc "subject_id" subject_id = true ->
   (List.length (List.filter (fun d => str_field_is d "subject_id" subject_id)
                             (coll_of s "weight")) <= 200)%nat ->
   exists rs,
     list_weights (Some subject_id) None (Some s) = (inr rs, Some s) /\
     In (_to_str_id doc) rs).
Proof.
  split; [ reflexivity | ].
  intros Hne Hin Hsid Hlen. unfold list_weights.
  assert (truthy (Some subject_id) = Some subject_id) as ->
    by (destruct subject_id; [ congruence | reflexivity ]).
  rewrite get_documents_run. eexists. split; [ reflexivity | ].
  cbn [filter_on default from_option id app].
  assert (Hext : forall d, matches [("subject_id", VStr subject_id)] d
                           = str_field_is d "subject_id" subject_id)
    by (intros d; now apply (matches_filter_on_str "subject_id")).
  rewrite (List.filter_ext _ _ Hext).
  rewrite apply_limit_all by (right; exact Hlen).
  apply List.in_map, List.filter_In. auto.
Qed.

(** * Further properties of the weight write *)

Lemma resolve_weight_run s subject_id class_name :
  resolve_weight subject_id class_name (Some s)
  = (inr (spec_resolve_weight (coll_of s "weight") subject_id class_name),
     Some s).
Proof.
  unfold spec_resolve_weight.
  destruct (spec_weight_record (coll_of s "weight") subject_id class_name)
    as [w |] eqn:E.
  - now apply resolve_weight_found.
  - now apply resolve_weight_missing.
Qed.

Lemma find_skip {A} (f : A -> bool) l1 x l2 :
  f x = false -> List.find f (l1 ++ x :: l2) = List.find f (l1 ++ l2).
Proof.
  intros Hx. induction l1 as [| a l1 IH]; cbn [app List.find].
  - now rewrite Hx.
  - destruct (f a); [ reflexivity | exact IH ].
Qed.

Lemma find_app_hit {A} (f : A -> bool) l1 x l2 :
  List.find f l1 = None -> f x = true -> List.find f (l1 ++ x :: l2) = Some x.
Proof.
  intros H1 Hx. rewrite (find_app_none _ _ _ H1). cbn [List.find]. now rewrite Hx.
Qed.

(** The weight collection after a successful write: the written record
    [w] stands where the record [old] of the payload's scope stood, or
    at the end if there was none. *)
Lemma set_weight_written now now' oid p s res s' :
  unique_ids (coll_of s "weight") ->
  set_weight now now' oid p (Some s) = (inr res, Some s') ->
  exists l1 w l2 old,
    coll_of s' "weight" = (l1 ++ w :: l2)%list /\
    coll_of s "weight" = (l1 ++ old ++ l2)%list /\
    List.find (scope_is (wi_subject_id p) (opt_str (wi_class_name p))) l1 = None /\
    (forall k v, model_dump p !! k = Some v -> fields w !! k = Some v) /\
    (forall x, In x old ->
       scope_is (wi_subject_id p) (opt_str (wi_class_name p)) x = true) /\
    (forall name, name <> "weight" -> coll_of s' name = coll_of s name).
Proof.
  intros Hu Hrun.
  destruct (List.find (scope_is (wi_subject_id p) (opt_str (wi_class_name p)))
              (coll_of s "weight")) as [e |] eqn:Efind.
  - rewrite (set_weight_existing _ _ _ _ _ _ Efind) in Hrun.
    injection Hrun as <- <-.
    destruct (find_split _ _ _ Efind) as (l1 & l2 & Hc & He & Hl1).
    rewrite Hc in Hu. rewrite coll_of_insert, Hc.
    rewrite (update_first_by_id _ _ _ _ Hu).
    exists l1, (set_fields (written_on_update now p) e), l2, [e].
    split; [ reflexivity | ]. split; [ reflexivity | ].
    split; [ exact Hl1 | ]. split; [ | split ].
    + intros k v Hk. apply set_fields_lookup. unfold written_on_update.
      destruct (decide (k = "updated_at")) as [-> | Hne];
        [ discriminate | ].
      now rewrite lookup_insert_ne by congruence.
    + intros x [<- | []]. exact He.
    + intros name Hne. now apply coll_of_insert_ne.
  - rewrite (set_weight_absent _ _ _ _ _ Efind) in Hrun.
    destruct (existsb _ _); [ discriminate | ]. injection Hrun as <- <-.
    rewrite coll_of_insert.
    exists (coll_of s "weight"), (Document oid (written_on_insert now now' p)), [], [].
    split; [ reflexivity | ]. split; [ now rewrite !app_nil_r | ].
    split; [ exact Efind | ]. split; [ | split ].
    + intros k v Hk. simpl. unfold written_on_insert.
      destruct (decide (k = "updated_at")) as [-> | Hne1]; [ discriminate | ].
      destruct (decide (k = "created_at")) as [-> | Hne2]; [ discriminate | ].
      now rewrite !lookup_insert_ne by congruence.
    + intros x [].
    + intros name Hne. now apply coll_of_insert_ne.
Qed.

Lemma weights_of_written p w :
  (forall k v, model_dump p !! k = Some v -> fields w !! k = Some v) ->
  weights_of_record w = payload_weights p /\
  fields w !! "subject_id" = Some (VStr (wi_subject_id p)) /\
  fields w !! "class_name" = Some (opt_str (wi_class_name p)).
Proof.
  intros H. unfold weights_of_record, payload_weights.
  rewrite (H "tugas" (VNum (wi_tugas p)) eq_refl),
    (H "kuis" (VNum (wi_kuis p)) eq_refl),
    (H "uts" (VNum (wi_uts p)) eq_refl),
    (H "uas" (VNum (wi_uas p)) eq_refl).
  split; [ reflexivity | ]. split; apply H; reflexivity.
Qed.

(** X10.  Write then resolve.  After a successful [set_weight] on a
    weight collection with distinct [_id]s, resolving the payload's
    subject and class name gives exactly the payload's four weights. *)
Theorem set_weight_then_resolve now now' oid p s res s' :
  unique_ids (coll_of s "weight") ->
  set_weight now now' oid p (Some s) = (inr res, Some s') ->
  resolve_weight (wi_subject_id p) (opt_str (wi_class_name p)) (Some s')
  = (inr (payload_weights p), Some s').
Proof.
  intros Hu Hrun.
  destruct (set_weight_written _ _ _ _ _ _ _ Hu Hrun)
    as (l1 & w & l2 & old & Hc' & Hc & Hl1 & Hw & Hold & Hother).
  destruct (weights_of_written _ _ Hw) as (Hws & Hsid & Hcn).
  rewrite <- Hws. apply resolve_weight_found.
  unfold spec_weight_record. rewrite Hc'.
  rewrite (find_app_hit _ _ _ _ Hl1); [ reflexivity | ].
  now apply (scope_is_fields _ _ _ _ _ Hsid Hcn).
Qed.

Lemma find_all_false {A} (f : A -> bool) l :
  (forall x, In x l -> f x = false) -> List.find f l = None.
Proof.
  induction l as [| a l IH]; cbn [List.find]; [ reflexivity | ].
  intros H. rewrite (H a) by now left. apply IH. intros x Hx. apply H. now right.
Qed.

Lemma find_skip_list {A} (f : A -> bool) l1 old l2 :
  (forall x, In x old -> f x = false) ->
  List.find f (l1 ++ old ++ l2) = List.find f (l1 ++ l2).
Proof.
  intros Hold. induction l1 as [| a l1 IH]; cbn [app List.find].
  - now apply find_app_none, find_all_false.
  - destruct (f a); [ reflexivity | exact IH ].
Qed.

Lemma scope_is_subject subject_id class_name d :
  scope_is subject_id class_name d = true ->
  str_field_is d "subject_id" subject_id = true.
Proof. unfold scope_is. intros H. now apply andb_true_iff in H as [H _]. Qed.

Lemma str_field_is_functional d k x y :
  str_field_is d k x = true -> str_field_is d k y = true -> x = y.
Proof.
  unfold str_field_is. destruct (fields d !! k) as [[| z | | |] |];
    try discriminate.
  intros Hx Hy. apply String.eqb_eq in Hx, Hy. congruence.
Qed.

Lemma scope_is_other_subject sid sid' cn cn' d :
  sid <> sid' -> scope_is sid cn d = true -> scope_is sid' cn' d = false.
Proof.
  intros Hne H. destruct (scope_is sid' cn' d) eqn:E; [ exfalso | reflexivity ].
  apply scope_is_subject in H, E. apply Hne.
  eapply str_field_is_functional; eassumption.
Qed.

(** X11.  The subject-wide write reaches every class without its own
    record.  After a successful [set_weight] whose payload has no class
    name, resolving the payload's subject for any class name that had no
    record of exactly that scope gives the payload's four weights. *)
Theorem subject_wide_write_is_the_fallback now now' oid p s res s' class_name :
  unique_ids (coll_of s "weight") ->
  wi_class_name p = None ->
  List.find (scope_is (wi_subject_id p) class_name) (coll_of s "weight") = None ->
  set_weight now now' oid p (Some s) = (inr res, Some s') ->
  resolve_weight (wi_subject_id p) class_name (Some s')
  = (inr (payload_weights p), Some s').
Proof.
  intros Hu Hcls Hnone Hrun.
  destruct (set_weight_written _ _ _ _ _ _ _ Hu Hrun)
    as (l1 & w & l2 & old & Hc' & Hc & Hl1 & Hw & Hold & Hother).
  destruct (weights_of_written _ _ Hw) as (Hws & Hsid & Hcn).
  rewrite Hcls in *. cbn [opt_str] in *.
  assert (Hwide : scope_is (wi_subject_id p) VNone w = true)
    by now apply (scope_is_fields _ None _ _ None Hsid Hcn).
  rewrite <- Hws. apply resolve_weight_found.
  unfold spec_weight_record. rewrite Hc'.
  destruct (scope_is (wi_subject_id p) class_name w) eqn:Ew.
  - assert (class_name = VNone) as ->.
    { unfold scope_is in Ew. rewrite Hcn in Ew.
      apply andb_true_iff in Ew as [_ Ew]. now destruct class_name. }
    now rewrite (find_app_hit _ _ _ _ Hl1).
  - rewrite (find_skip _ _ _ _ Ew).
    pose proof (List.find_none _ _ Hnone) as Hall. rewrite Hc in Hall.
    rewrite find_all_false.
    + now apply find_app_hit.
    + intros x Hx. apply Hall.
      apply List.in_app_or in Hx as [Hx | Hx]; apply List.in_or_app;
        [ now left | right; apply List.in_or_app; now right ].
Qed.

(** X12.  A weight write is local to its subject.  After a successful
    [set_weight], the weights resolved for any other subject, under any
    class name, are what they were before, and no other collection has
    changed. *)
Theorem set_weight_other_subject now now' oid p s res s' subject_id class_name :
  unique_ids (coll_of s "weight") ->
  subject_id <> wi_subject_id p ->
  set_weight now now' oid p (Some s) = (inr res, Some s') ->
  (resolve_weight subject_id class_name (Some s')).1
  = (resolve_weight subject_id class_name (Some s)).1 /\
  (forall name, name <> "weight" -> coll_of s' name = coll_of s name).
Proof.
  intros Hu Hne Hrun.
  destruct (set_weight_written _ _ _ _ _ _ _ Hu Hrun)
    as (l1 & w & l2 & old & Hc' & Hc & Hl1 & Hw & Hold & Hother).
  destruct (weights_of_written _ _ Hw) as (Hws & Hsid & Hcn).
  split; [ | exact Hother ].
  rewrite !resolve_weight_run. cbn [fst]. f_equal.
  assert (Hw' : scope_is (wi_subject_id p) (opt_str (wi_class_name p)) w = true)
    by now apply (scope_is_fields _ _ _ _ _ Hsid Hcn).
  assert (Hsame : forall cn,
            List.find (scope_is subject_id cn) (coll_of s' "weight")
            = List.find (scope_is subject_id cn) (coll_of s "weight")).
  { intros cn. rewrite Hc', Hc.
    rewrite find_skip
      by (eapply scope_is_other_subject; [ | exact Hw' ]; congruence).
    rewrite find_skip_list; [ reflexivity | ].
    intros x Hx. eapply scope_is_other_subject; [ | apply (Hold x Hx) ].
    congruence. }
  unfold spec_resolve_weight, spec_weight_record. now rewrite !Hsame.
Qed.

(** X13.  Timestamps of a weight write.  When a record of the payload's
    scope exists, the response carries [updated_at] = the handler's
    clock reading and no [created_at], and the rewritten record keeps
    the [created_at] it had.  When none exists, the response carries
    [created_at] and [updated_at] = the handler's clock reading, while
    the stored record's [updated_at] is the later reading taken inside
    [create_document]. *)
Theorem set_weight_timestamps now now' oid p s res s' :
  unique_ids (coll_of s "weight") ->
  set_weight now now' oid p (Some s) = (inr res, Some s') ->
  res !! "updated_at" = Some (VDate now) /\
  match List.find (scope_is (wi_subject_id p) (opt_str (wi_class_name p)))
                  (coll_of s "weight") with
  | Some e =>
      res !! "created_at" = None /\
      exists e', In e' (coll_of s' "weight") /\ _id e' = _id e /\
                 fields e' !! "updated_at" = Some (VDate now) /\
                 fields e' !! "created_at" = fields e !! "created_at"
  | None =>
      res !! "created_at" = Some (VDate now) /\
      exists w, In w (coll_of s' "weight") /\ _id w = oid /\
                fields w !! "created_at" = Some (VDate now) /\
                fields w !! "updated_at" = Some (VDate now')
  end.
Proof.
  intros Hu Hrun.
  destruct (List.find _ (coll_of s "weight")) as [e |] eqn:Efind.
  - rewrite (set_weight_existing _ _ _ _ _ _ Efind) in Hrun.
    injection Hrun as <- <-.
    destruct (find_split _ _ _ Efind) as (l1 & l2 & Hc & He & Hl1).
    rewrite Hc in Hu. rewrite coll_of_insert, Hc.
    rewrite (update_first_by_id _ _ _ _ Hu).
    split; [ reflexivity | ]. split; [ reflexivity | ].
    exists (set_fields (written_on_update now p) e).
    split; [ apply List.in_or_app; right; now left | ].
    split; [ reflexivity | ]. split.
    + now apply set_fields_lookup.
    + simpl. now apply lookup_union_r.
  - rewrite (set_weight_absent _ _ _ _ _ Efind) in Hrun.
    destruct (existsb _ _); [ discriminate | ]. injection Hrun as <- <-.
    rewrite coll_of_insert.
    split; [ reflexivity | ]. split; [ reflexivity | ].
    exists (Document oid (written_on_insert now now' p)).
    split; [ apply List.in_or_app; right; now left | ].
    repeat split.
Qed.

(** X14.  An uninitialised [db].  When [db] is [None], the handlers that
    go through [database.py] first ([generate_report], [create_student],
    [create_subject], [add_score], the list handlers) raise the
    [RuntimeError] of its guard, while [set_weight], which subscripts
    [db] itself, raises [TypeError]; [db] stays [None]. *)
Theorem uninitialised_db_errors fos now now' oid
    student_id subject_id st su sc w a b c :
  generate_report fos student_id subject_id None
    = (inl (RuntimeError "Database not initialized"), None) /\
  create_student now oid st None
    = (inl (RuntimeError "Database not initialized"), None) /\
  create_subject now oid su None
    = (inl (RuntimeError "Database not initialized"), None) /\
  add_score now now' oid sc None
    = (inl (RuntimeError "Database not initialized"), None) /\
  list_subjects None = (inl (RuntimeError "Database not initialized"), None) /\
  list_weights a b None = (inl (RuntimeError "Database not initialized"), None) /\
  list_scores a b c None = (inl (RuntimeError "Database not initialized"), None) /\
  set_weight now now' oid w None = (inl TypeError, None).
Proof. repeat split. Qed.

(** * Further properties of the report *)

Lemma agree_bind {A B} (m : M A) (k : A -> M B) db1 db2 :
  read_only m ->
  (m db1).1 = (m db2).1 ->
  (forall a, (k a db1).1 = (k a db2).1) ->
  (bind m k db1).1 = (bind m k db2).1.
Proof.
  intros Hro Hm Hk. unfold bind.
  pose proof (Hro db1) as H1. pose proof (Hro db2) as H2.
  destruct (m db1) as [[e1 | a1] d1], (m db2) as [[e2 | a2] d2];
    simpl in *; subst; try discriminate.
  - injection Hm as ->. reflexivity.
  - injection Hm as ->. apply Hk.
Qed.

Lemma agree_py_add a b db1 db2 : (py_add a b db1).1 = (py_add a b db2).1.
Proof. destruct a, b; reflexivity. Qed.

Lemma agree_py_float fos v db1 db2 : (py_float fos v db1).1 = (py_float fos v db2).1.
Proof. destruct v; simpl; try reflexivity. now destruct (fos s). Qed.

Lemma agree_subscript d k db1 db2 : (subscript d k db1).1 = (subscript d k db2).1.
Proof. unfold subscript. now destruct (d !! k). Qed.

Lemma agree_for_each {A B} (step : A -> B -> M A) xs db1 db2 :
  (forall a b, read_only (step a b)) ->
  (forall a b, (step a b db1).1 = (step a b db2).1) ->
  forall acc, (for_each step acc xs db1).1 = (for_each step acc xs db2).1.
Proof.
  intros Hro Hstep. induction xs as [| x xs IH]; intros acc; simpl.
  - reflexivity.
  - apply agree_bind; auto.
Qed.

Lemma agree_weigh rows db1 db2 : (weigh rows db1).1 = (weigh rows db2).1.
Proof.
  unfold weigh. apply agree_for_each.
  - intros [components final] [[name avg_val] w]. unfold weigh_step.
    auto with ro.
  - intros [components final] [[name avg_val] w]. unfold weigh_step.
    destruct w; reflexivity.
Qed.

Lemma document_by_id_coll s s' name doc_id :
  coll_of s name = coll_of s' name ->
  document_by_id s name doc_id = document_by_id s' name doc_id.
Proof. intros H. unfold document_by_id. now rewrite H. Qed.

Ltac agree_step :=
  first
    [ reflexivity
    | assumption
    | apply agree_bind;
        [ solve [ auto with ro ]
        | first [ assumption | apply agree_py_add | apply agree_py_float
                | apply agree_subscript | apply agree_weigh ]
        | intros ? ]
    | match goal with
      | |- ((if ?b then _ else _) _).1 = ((if ?b then _ else _) _).1 => destruct b
      | |- ((match ?x with _ => _ end) _).1 = ((match ?x with _ => _ end) _).1 =>
          destruct x
      end ].

Lemma generate_report_agrees fos student_id subject_id s s' :
  coll_of s "student" = coll_of s' "student" ->
  coll_of s "subject" = coll_of s' "subject" ->
  coll_of s "weight" = coll_of s' "weight" ->
  (forall t, In t ["tugas"; "kuis"; "uts"; "uas"] ->
     matching_scores s student_id subject_id t
     = matching_scores s' student_id subject_id t) ->
  (generate_report fos student_id subject_id (Some s)).1
  = (generate_report fos student_id subject_id (Some s')).1.
Proof.
  intros Hst Hsu Hw Hsc.
  assert (Havg : forall t, In t ["tugas"; "kuis"; "uts"; "uas"] ->
            (avg_of student_id subject_id t (Some s)).1
            = (avg_of student_id subject_id t (Some s')).1)
    by (intros t Ht; apply avg_of_agrees, Hsc, Ht).
  pose proof (Havg "tugas" ltac:(simpl; auto)) as H1.
  pose proof (Havg "kuis" ltac:(simpl; auto)) as H2.
  pose proof (Havg "uts" ltac:(simpl; auto)) as H3.
  pose proof (Havg "uas" ltac:(simpl; auto)) as H4.
  assert (Hres : forall cn,
            (resolve_weight subject_id cn (Some s)).1
            = (resolve_weight subject_id cn (Some s')).1)
    by (intros cn; rewrite !resolve_weight_run, Hw; reflexivity).
  unfold generate_report.
  rewrite !(bind_inr _ _ _ _ _ (get_document_by_id_run _ _ _)).
  rewrite (document_by_id_coll s s' "student" _ Hst),
    (document_by_id_coll s s' "subject" _ Hsu).
  destruct (document_by_id s' "student" student_id) as [student |];
    [ | reflexivity ].
  destruct (document_by_id s' "subject" subject_id) as [subject |];
    [ | reflexivity ].
  apply agree_bind; [ auto with ro | apply Hres | intros [[[tw kw] uw] aw] ].
  repeat agree_step.
Qed.

(** X15.  What a report depends on.  The outcome of [generate_report]
    for a student and a subject is determined by the student, subject
    and weight collections and by the Score records that match the
    student, the subject and one of tugas, kuis, uts, uas: two stores
    that agree on these give the same outcome. *)
Theorem generate_report_depends_on fos student_id subject_id s s' :
  coll_of s "student" = coll_of s' "student" ->
  coll_of s "subject" = coll_of s' "subject" ->
  coll_of s "weight" = coll_of s' "weight" ->
  (forall t, In t ["tugas"; "kuis"; "uts"; "uas"] ->
     matching_scores s student_id subject_id t
     = matching_scores s' student_id subject_id t) ->
  (generate_report fos student_id subject_id (Some s)).1
  = (generate_report fos student_id subject_id (Some s')).1.
Proof. apply generate_report_agrees. Qed.

(** ** Adding a score *)

Lemma add_score_run now now' oid p s :
  add_score now now' oid p (Some s)
  = if existsb (fun d => ObjectId_eqb (_id d) oid) (coll_of s "score")
    then (inl DuplicateKeyError, Some s)
    else (inr (score_written now p ∪ {["id" := VStr (ObjectId_str oid)]}),
          Some (<["score" := (coll_of s "score"
                 ++ [Document oid (stamped now' (score_written now p))])%list]> s)).
Proof.
  unfold add_score. fold (score_written now p).
  unfold bind. rewrite create_document_run.
  destruct (existsb _ _); reflexivity.
Qed.

Lemma score_written_lookup now now' p :
  let w := stamped now' (score_written now p) in
  w !! "student_id" = Some (VStr (sc_student_id p)) /\
  w !! "subject_id" = Some (VStr (sc_subject_id p)) /\
  w !! "type" = Some (VStr (sc_type p)) /\
  w !! "value" = Some (VNum (sc_value p)).
Proof.
  unfold stamped, score_written, score_dump, dict_get.
  destruct (sc_date p); repeat split.
Qed.

Lemma score_is_written now now' oid p student_id subject_id t :
  score_is student_id subject_id t
    (Document oid (stamped now' (score_written now p)))
  = String.eqb (sc_student_id p) student_id
    && String.eqb (sc_subject_id p) subject_id
    && String.eqb (sc_type p) t.
Proof.
  destruct (score_written_lookup now now' p) as (H1 & H2 & H3 & _).
  unfold score_is, str_field_is. cbn [fields]. now rewrite H1, H2, H3.
Qed.

Lemma matching_scores_after_add now now' oid p s res s' student_id subject_id t :
  add_score now now' oid p (Some s) = (inr res, Some s') ->
  matching_scores s' student_id subject_id t
  = (matching_scores s student_id subject_id t
     ++ if String.eqb (sc_student_id p) student_id
           && String.eqb (sc_subject_id p) subject_id
           && String.eqb (sc_type p) t
        then [Document oid (stamped now' (score_written now p))] else [])%list
  /\ forall name, name <> "score" -> coll_of s' name = coll_of s name.
Proof.
  rewrite add_score_run. destruct (existsb _ _); [ discriminate | ].
  intros [= <- <-]. split.
  - unfold matching_scores. rewrite coll_of_insert, List.filter_app.
    cbn [List.filter]. now rewrite score_is_written.
  - intros name Hne. now apply coll_of_insert_ne.
Qed.

(** X16.  A score counts only for its own student, subject and type.
    After a successful [add_score] whose payload names another student,
    another subject, or a type that is none of tugas, kuis, uts, uas,
    the outcome of the report is what it was before: [add_score] stores
    a score of any type, and the report never reads it. *)
Theorem add_score_elsewhere fos now now' oid p s res s' student_id subject_id :
  add_score now now' oid p (Some s) = (inr res, Some s') ->
  sc_student_id p <> student_id \/ sc_subject_id p <> subject_id \/
  ~ In (sc_type p) ["tugas"; "kuis"; "uts"; "uas"] ->
  (generate_report fos student_id subject_id (Some s')).1
  = (generate_report fos student_id subject_id (Some s)).1.
Proof.
  intros Hrun Hother.
  assert (Hc : forall name, name <> "score" -> coll_of s' name = coll_of s name)
    by apply (matching_scores_after_add _ _ _ _ _ _ _ "" "" "" Hrun).
  apply generate_report_agrees; try (apply Hc; discriminate).
  intros t Ht.
  destruct (matching_scores_after_add _ _ _ _ _ _ _ student_id subject_id t Hrun)
    as [-> _].
  assert (String.eqb (sc_student_id p) student_id
          && String.eqb (sc_subject_id p) subject_id
          && String.eqb (sc_type p) t = false) as ->.
  { apply not_true_iff_false. intros H.
    apply andb_true_iff in H as [H Ht'].
    apply andb_true_iff in H as [Hs Hj].
    apply String.eqb_eq in Hs, Hj, Ht'.
    destruct Hother as [Ho | [Ho | Ho]]; [ auto | auto | ].
    apply Ho. now rewrite Ht'. }
  apply app_nil_r.
Qed.



(** ** Well-shaped stores *)

Lemma document_by_id_inv s name doc_id d :
  document_by_id s name doc_id = Some d ->
  exists doc, In doc (coll_of s name) /\ d = _to_str_id doc.
Proof.
  unfold document_by_id. destruct (ObjectId_parse doc_id); [ | discriminate ].
  destruct (List.find _ _) as [doc |] eqn:E; [ | discriminate ].
  intros [= <-]. apply List.find_some in E as [Hin _]. eauto.
Qed.

Lemma numeric_or_absent_default d k (q : float) :
  numeric_or_absent d k = true ->
  exists q', default (VNum q) (fields d !! k) = VNum q'.
Proof.
  unfold numeric_or_absent.
  destruct (fields d !! k) as [[| | q' | |] |]; try discriminate; simpl; eauto.
Qed.

Lemma spec_resolve_numeric c subject_id class_name :
  forallb weight_ok c = true ->
  exists tw kw uw aw,
    spec_resolve_weight c subject_id class_name
    = (VNum tw, VNum kw, VNum uw, VNum aw).
Proof.
  intros Hok. unfold spec_resolve_weight.
  destruct (spec_weight_record c subject_id class_name) as [w |] eqn:E.
  - assert (Hin : In w c).
    { unfold spec_weight_record in E.
      destruct (List.find (scope_is subject_id class_name) c) eqn:E1.
      - injection E as <-. now apply List.find_some in E1.
      - now apply List.find_some in E. }
    pose proof (proj1 (List.forallb_forall _ _) Hok w Hin) as Hw.
    unfold weight_ok in Hw.
    apply andb_true_iff in Hw as [Hw H4].
    apply andb_true_iff in Hw as [Hw H3].
    apply andb_true_iff in Hw as [H1 H2].
    destruct (numeric_or_absent_default _ _ (float_of_int 30) H1) as [tw Ht].
    destruct (numeric_or_absent_default _ _ (float_of_int 20) H2) as [kw Hk].
    destruct (numeric_or_absent_default _ _ (float_of_int 20) H3) as [uw Hu].
    destruct (numeric_or_absent_default _ _ (float_of_int 30) H4) as [aw Ha].
    exists tw, kw, uw, aw. unfold weights_of_record, num.
    now rewrite Ht, Hk, Hu, Ha.
  - exists (float_of_int 30), (float_of_int 20), (float_of_int 20),
      (float_of_int 30). reflexivity.
Qed.

Lemma numbers_of_ok (ds : collection) :
  Forall (fun d => score_ok d = true) ds ->
  exists xs,
    numbers (List.map (fun doc => dict_get (to_dict doc) "value" (num 0)) ds)
    = Some xs /\ List.length xs = List.length ds.
Proof.
  induction 1 as [| d ds Hd _ (xs & IH & Hlen)]; simpl; [ eauto | ].
  rewrite dict_get_to_dict by discriminate.
  destruct (numeric_or_absent_default _ _ (float_of_int 0) Hd) as [q Hq].
  unfold num in *. rewrite Hq. cbn [numbers]. rewrite IH.
  eexists. split; [ reflexivity | ]. simpl. now rewrite Hlen.
Qed.

Lemma avg_of_ok s student_id subject_id t :
  forallb score_ok (coll_of s "score") = true ->
  exists a, avg_of student_id subject_id t (Some s) = (inr a, Some s).
Proof.
  intros Hok. rewrite avg_of_run.
  assert (Hds : Forall (fun d => score_ok d = true)
                  (matching_scores s student_id subject_id t)).
  { apply List.Forall_forall. intros d Hd. unfold matching_scores in Hd.
    apply List.filter_In in Hd as [Hd _].
    exact (proj1 (List.forallb_forall _ _) Hok d Hd). }
  destruct (numbers_of_ok _ Hds) as (xs & Hxs & Hlen).
  destruct (matching_scores s student_id subject_id t) as [| d ds];
    [ eauto | ].
  assert (Hne : xs <> []) by (destruct xs; [ discriminate | discriminate ]).
  destruct (mean_numbers _ _ (Some s) Hxs Hne) as [m Hm].
  rewrite (bind_inr _ _ _ _ _ Hm). eauto.
Qed.

Lemma generate_report_no_document fos s student_id subject_id :
  document_by_id s "student" student_id = None \/
  document_by_id s "subject" subject_id = None ->
  generate_report fos student_id subject_id (Some s)
  = (inl (HTTPException 404 "Siswa atau mapel tidak ditemukan"), Some s).
Proof.
  intros H. unfold generate_report.
  rewrite (bind_inr _ _ _ _ _ (get_document_by_id_run _ _ _)).
  rewrite (bind_inr _ _ _ _ _ (get_document_by_id_run _ _ _)).
  destruct H as [H | H]; rewrite H.
  - now destruct (document_by_id s "subject" subject_id).
  - now destruct (document_by_id s "student" student_id).
Qed.

Lemma generate_report_zero_total fos s student_id subject_id
    student subject tw kw uw aw :
  document_by_id s "student" student_id = Some student ->
  document_by_id s "subject" subject_id = Some subject ->
  resolve_weight subject_id (dict_get student "class_name" VNone) (Some s)
    = (inr (VNum tw, VNum kw, VNum uw, VNum aw), Some s) ->
  (total_of tw kw uw aw == float_of_int 0)%fl = true ->
  generate_report fos student_id subject_id (Some s)
  = (inl (HTTPException 400 "Semua bobot 0"), Some s).
Proof.
  intros Hst Hsu Hw Hz. unfold generate_report.
  rewrite (bind_inr _ _ _ _ _ (get_document_by_id_run _ _ _)).
  rewrite (bind_inr _ _ _ _ _ (get_document_by_id_run _ _ _)).
  rewrite Hst, Hsu.
  rewrite (bind_inr _ _ _ _ _ Hw).
  rewrite (bind_inr _ _ _ _ _ (py_add_num _ _ _)).
  rewrite (bind_inr _ _ _ _ _ (py_add_num _ _ _)).
  rewrite (bind_inr _ _ _ _ _ (py_add_num _ _ _)).
  cbn [py_eq_zero]. fold (total_of tw kw uw aw). now rewrite Hz.
Qed.

Lemma schema_ok_parts s :
  schema_ok s = true ->
  forallb student_ok (coll_of s "student") = true /\
  forallb subject_ok (coll_of s "subject") = true /\
  forallb weight_ok (coll_of s "weight") = true /\
  forallb score_ok (coll_of s "score") = true.
Proof.
  unfold schema_ok. intros H.
  apply andb_true_iff in H as [H H4].
  apply andb_true_iff in H as [H H3].
  apply andb_true_iff in H as [H1 H2]. auto.
Qed.

Lemma has_field_Some d k : has_field d k = true -> exists v, fields d !! k = Some v.
Proof. unfold has_field. destruct (fields d !! k); [ eauto | discriminate ]. Qed.

(** X18.  No internal error on a well-shaped store.  When every student
    has a name, every subject a name and a numeric or absent kkm, and
    every stored weight and score value is a number, [generate_report]
    ends in a report, in the 404 or in the 400: it raises no
    [TypeError], [KeyError] or [ValueError]. *)
Theorem generate_report_no_internal_error fos s student_id subject_id :
  schema_ok s = true ->
  (exists r, generate_report fos student_id subject_id (Some s) = (inr r, Some s)) \/
  generate_report fos student_id subject_id (Some s)
    = (inl (HTTPException 404 "Siswa atau mapel tidak ditemukan"), Some s) \/
  generate_report fos student_id subject_id (Some s)
    = (inl (HTTPException 400 "Semua bobot 0"), Some s).
Proof.
  intros Hok. apply schema_ok_parts in Hok as (Hst & Hsu & Hw & Hsc).
  destruct (document_by_id s "student" student_id) as [student |] eqn:Est;
    [ | right; left; apply generate_report_no_document; auto ].
  destruct (document_by_id s "subject" subject_id) as [subject |] eqn:Esu;
    [ | right; left; apply generate_report_no_document; auto ].
  destruct (document_by_id_inv _ _ _ _ Est) as (sd & Hsd & ->).
  destruct (document_by_id_inv _ _ _ _ Esu) as (jd & Hjd & ->).
  pose proof (proj1 (List.forallb_forall _ _) Hst sd Hsd) as Hsd_ok.
  pose proof (proj1 (List.forallb_forall _ _) Hsu jd Hjd) as Hjd_ok.
  apply has_field_Some in Hsd_ok as [fn Hfn].
  unfold subject_ok in Hjd_ok. apply andb_true_iff in Hjd_ok as [Hname Hkkm].
  apply has_field_Some in Hname as [nm Hnm].
  destruct (numeric_or_absent_default _ _ (float_of_int 70) Hkkm) as [kkm Hk].
  destruct (spec_resolve_numeric _ subject_id
              (dict_get (_to_str_id sd) "class_name" VNone) Hw)
    as (tw & kw & uw & aw & Hres).
  pose proof (resolve_weight_run s subject_id
                (dict_get (_to_str_id sd) "class_name" VNone)) as Hrun.
  rewrite Hres in Hrun.
  destruct (total_of tw kw uw aw == float_of_int 0)%fl eqn:Hz.
  - right. right. eapply generate_report_zero_total; eassumption.
  - left.
    destruct (avg_of_ok s student_id subject_id "tugas" Hsc) as [a1 H1].
    destruct (avg_of_ok s student_id subject_id "kuis" Hsc) as [a2 H2].
    destruct (avg_of_ok s student_id subject_id "uts" Hsc) as [a3 H3].
    destruct (avg_of_ok s student_id subject_id "uas" Hsc) as [a4 H4].
    eexists.
    eapply (generate_report_run fos s student_id subject_id
              (_to_str_id sd) (_to_str_id jd) tw kw uw aw a1 a2 a3 a4 kkm);
      try eassumption.
    + unfold dict_get, num. rewrite to_str_id_lookup_other by discriminate.
      rewrite Hk. reflexivity.
    + apply to_str_id_lookup_id.
    + rewrite to_str_id_lookup_other by discriminate. exact Hfn.
    + apply to_str_id_lookup_id.
    + rewrite to_str_id_lookup_other by discriminate. exact Hnm.
Qed.

Lemma schema_ok_put s name c :
  schema_ok s = true ->
  (name = "student" -> forallb student_ok c = true) ->
  (name = "subject" -> forallb subject_ok c = true) ->
  (name = "weight" -> forallb weight_ok c = true) ->
  (name = "score" -> forallb score_ok c = true) ->
  schema_ok (<[name := c]> s) = true.
Proof.
  intros Hok H1 H2 H3 H4.
  apply schema_ok_parts in Hok as (Hst & Hsu & Hw & Hsc).
  unfold schema_ok. repeat (apply andb_true_iff; split).
  - destruct (decide (name = "student")) as [-> | Hne];
      [ rewrite coll_of_insert; auto | now rewrite coll_of_insert_ne ].
  - destruct (decide (name = "subject")) as [-> | Hne];
      [ rewrite coll_of_insert; auto | now rewrite coll_of_insert_ne ].
  - destruct (decide (name = "weight")) as [-> | Hne];
      [ rewrite coll_of_insert; auto | now rewrite coll_of_insert_ne ].
  - destruct (decide (name = "score")) as [-> | Hne];
      [ rewrite coll_of_insert; auto | now rewrite coll_of_insert_ne ].
Qed.

Lemma forallb_snoc {A} (f : A -> bool) l x :
  forallb f l = true -> f x = true -> forallb f (l ++ [x]) = true.
Proof.
  intros Hl Hx. rewrite List.forallb_app, Hl. simpl. now rewrite Hx.
Qed.

Lemma weight_ok_set_fields now p d :
  weight_ok (set_fields (written_on_update now p) d) = true.
Proof.
  unfold weight_ok, numeric_or_absent.
  rewrite (set_fields_lookup (written_on_update now p) d "tugas"
             (VNum (wi_tugas p)) eq_refl),
    (set_fields_lookup (written_on_update now p) d "kuis"
       (VNum (wi_kuis p)) eq_refl),
    (set_fields_lookup (written_on_update now p) d "uts"
       (VNum (wi_uts p)) eq_refl),
    (set_fields_lookup (written_on_update now p) d "uas"
       (VNum (wi_uas p)) eq_refl).
  reflexivity.
Qed.

Lemma forallb_update_first (f : document -> bool) q data c :
  (forall d, f (set_fields data d) = true) ->
  forallb f c = true -> forallb f (update_first q data c) = true.
Proof.
  intros Hset. induction c as [| d c IH]; cbn [update_first forallb];
    [ reflexivity | ].
  intros H. apply andb_true_iff in H as [Hd Hc].
  destruct (matches q d); cbn [forallb].
  - now rewrite Hset, Hc.
  - now rewrite Hd, IH.
Qed.

(** X19.  The writing handlers keep the store well-shaped.  From a
    well-shaped store, [create_student], [create_subject], [add_score]
    and [set_weight] lead to a well-shaped store, whether they succeed
    or the store refuses the generated identifier. *)
Theorem writers_keep_schema now now' oid s :
  schema_ok s = true ->
  (forall p, exists s',
     (create_student now oid p (Some s)).2 = Some s' /\ schema_ok s' = true) /\
  (forall p, exists s',
     (create_subject now oid p (Some s)).2 = Some s' /\ schema_ok s' = true) /\
  (forall p, exists s',
     (add_score now now' oid p (Some s)).2 = Some s' /\ schema_ok s' = true) /\
  (forall p, exists s',
     (set_weight now now' oid p (Some s)).2 = Some s' /\ schema_ok s' = true).
Proof.
  intros Hok. pose proof (schema_ok_parts _ Hok) as (Hst & Hsu & Hw & Hsc).
  split; [ | split; [ | split ] ]; intros p.
  - unfold create_student, bind. rewrite create_document_run.
    destruct (existsb _ _); cbn [snd]; eexists; (split; [ reflexivity | ]);
      [ exact Hok | ].
    apply schema_ok_put; try discriminate; auto.
    intros _. now apply forallb_snoc.
  - unfold create_subject, bind. rewrite create_document_run.
    destruct (existsb _ _); cbn [snd]; eexists; (split; [ reflexivity | ]);
      [ exact Hok | ].
    apply schema_ok_put; try discriminate; auto.
    intros _. now apply forallb_snoc.
  - rewrite add_score_run.
    destruct (existsb _ _); cbn [snd]; eexists; (split; [ reflexivity | ]);
      [ exact Hok | ].
    apply schema_ok_put; try discriminate; auto.
    intros _. apply forallb_snoc; [ exact Hsc | ].
    unfold score_ok, numeric_or_absent. cbn [fields].
    destruct (score_written_lookup now now' p) as (_ & _ & _ & ->).
    reflexivity.
  - destruct (List.find (scope_is (wi_subject_id p) (opt_str (wi_class_name p)))
                (coll_of s "weight")) as [e |] eqn:Efind.
    + rewrite (set_weight_existing _ _ _ _ _ _ Efind). cbn [snd].
      eexists. split; [ reflexivity | ].
      apply schema_ok_put; try discriminate; auto.
      intros _. apply forallb_update_first; [ | exact Hw ].
      apply weight_ok_set_fields.
    + rewrite (set_weight_absent _ _ _ _ _ Efind).
      destruct (existsb _ _); cbn [snd]; eexists; (split; [ reflexivity | ]);
        [ exact Hok | ].
      apply schema_ok_put; try discriminate; auto.
      intros _. now apply forallb_snoc.
Qed.

(** ** Ranges *)

(** X21.  Accepted scores stay in range.  When every stored score value
    lies between 0 and 100, it still does after [add_score] with a
    payload that meets the bounds its request model declares. *)
Theorem add_score_keeps_range now now' oid p s :
  scores_in_range s = true ->
  ScoreIn_valid p ->
  exists s',
    (add_score now now' oid p (Some s)).2 = Some s' /\
    scores_in_range s' = true.
Proof.
  intros Hr Hp. rewrite add_score_run.
  destruct (existsb _ _); cbn [snd]; eexists; (split; [ reflexivity | ]);
    [ exact Hr | ].
  unfold scores_in_range. rewrite coll_of_insert.
  apply forallb_snoc; [ exact Hr | ].
  unfold value_in_range. cbn [fields].
  destruct (score_written_lookup now now' p) as (_ & _ & _ & ->).
  exact Hp.
Qed.


Lemma firstn_snoc_full {A} n (l : list A) x :
  (n <= List.length l)%nat -> firstn n (l ++ [x]) = firstn n l.
Proof.
  intros H. rewrite List.firstn_app.
  replace (n - List.length l)%nat with 0%nat by lia.
  cbn [firstn]. apply app_nil_r.
Qed.

(** X24.  Listing stops at 500, the report does not.  Once the score
    collection holds 500 records or more, a score added by [add_score]
    does not appear in [list_scores] without filters, which returns the
    first 500 records in insertion order as before, although the
    aggregator counts it (X17). *)
Theorem add_score_beyond_listing now now' oid p s res s' :
  (500 <= List.length (coll_of s "score"))%nat ->
  add_score now now' oid p (Some s) = (inr res, Some s') ->
  (list_scores None None None (Some s')).1
  = (list_scores None None None (Some s)).1.
Proof.
  intros Hlen. rewrite add_score_run.
  destruct (existsb _ _); [ discriminate | ]. intros [= <- <-].
  unfold list_scores. rewrite !get_documents_run. cbn [fst].
  rewrite coll_of_insert. cbn [truthy filter_on app default from_option id].
  assert (Hall : forall c : collection, List.filter (matches []) c = c).
  { intros c. induction c as [| d c IH]; [ reflexivity | ].
    cbn [List.filter matches forallb]. now rewrite IH. }
  rewrite !Hall. unfold apply_limit.
  now rewrite firstn_snoc_full.
Qed.

(** * Instances of the further properties *)

Lemma get_document_by_id_found_witness :
  get_document_by_id "student" "AAAAAAAAAAAAAAAAAAAAAAAA" (Some (ex_store [] []))
  = (inr (Some (_to_str_id ex_student)), Some (ex_store [] [])) /\
  exists o,
    ObjectId_parse "AAAAAAAAAAAAAAAAAAAAAAAA" = Some o /\
    _to_str_id ex_student !! "id" = Some (VStr (ObjectId_str o)) /\
    _to_str_id ex_student !! "_id" = None.
Proof.
  assert (Hrun : get_document_by_id "student" "AAAAAAAAAAAAAAAAAAAAAAAA"
                   (Some (ex_store [] []))
                 = (inr (Some (_to_str_id ex_student)), Some (ex_store [] [])))
    by (vm_compute; reflexivity).
  split; [ exact Hrun | ].
  destruct (get_document_by_id_found _ _ _ _ Hrun)
    as (o & doc & Hp & _ & _ & Hid & Hno & _).
  exists o. auto.
Defined.

Lemma get_document_by_id_raises_iff_witness :
  (get_document_by_id "student" "zz" None).1
  = inl (RuntimeError "Database not initialized").
Proof.
  apply (proj2 (get_document_by_id_raises_iff "student" "zz" None _)).
  split; reflexivity.
Defined.

Lemma create_then_get_witness :
  exists s' d,
    create_document 7%Z ex_fresh_oid "subject" (subject_dump ex_subject_payload)
      (Some (ex_store [] []))
    = (inr "999999999999999999999999", Some s') /\
    get_document_by_id "subject" "999999999999999999999999" (Some s')
    = (inr (Some d), Some s') /\
    d !! "name" = Some (VStr "IPA") /\ d !! "updated_at" = Some (VDate 7%Z).
Proof.
  destruct (create_then_get 7%Z ex_fresh_oid "subject"
              (subject_dump ex_subject_payload) (ex_store [] []))
    as (s' & d & Hc & Hg & _ & Hu & _ & Hk).
  - vm_compute. reflexivity.
  - vm_compute. reflexivity.
  - exists s', d. split; [ exact Hc | ]. split; [ exact Hg | ].
    split; [ | exact Hu ].
    rewrite Hk by discriminate. reflexivity.
Defined.

Lemma delete_document_removes_witness :
  exists s',
    delete_document "student" ex_student_id (Some (ex_store [] []))
    = (inr true, Some s') /\
    coll_of s' "student" = [] /\
    get_document_by_id "student" ex_student_id (Some s') = (inr None, Some s').
Proof.
  destruct (delete_document_removes "student" ex_student_id (ex_store [] [])
              (Oid ex_student_id) [] ex_student [])
    as (s' & Hd & Hc & Hg & _).
  - vm_compute. apply NoDup_singleton.
  - vm_compute. reflexivity.
  - reflexivity.
  - reflexivity.
  - exists s'. auto.
Defined.

Lemma delete_document_misses_witness :
  delete_document "student" "not-an-object-id" (Some (ex_store [] []))
  = (inl InvalidId, Some (ex_store [] [])) /\
  delete_document "student" "ffffffffffffffffffffffff" (Some (ex_store [] []))
  = (inr false, Some (ex_store [] [])).
Proof.
  split.
  - apply (proj1 (delete_document_misses "student" "not-an-object-id"
                    (ex_store [] []))).
    vm_compute. reflexivity.
  - apply (proj2 (delete_document_misses "student" "ffffffffffffffffffffffff"
                    (ex_store [] [])) (Oid "ffffffffffffffffffffffff")).
    + vm_compute. reflexivity.
    + vm_compute. reflexivity.
Defined.

Lemma update_document_updates_witness :
  exists s' e',
    update_document 9%Z "student" ex_student_id {["class_name" := VStr "VIIB"]}
      (Some (ex_store [] []))
    = (inr true, Some s') /\
    coll_of s' "student" = [e'] /\
    fields e' !! "class_name" = Some (VStr "VIIB") /\
    fields e' !! "full_name" = Some (VStr "Budi") /\
    fields e' !! "updated_at" = Some (VDate 9%Z).
Proof.
  destruct (update_document_updates 9%Z "student" ex_student_id
              {["class_name" := VStr "VIIB"]} (ex_store [] [])
              (Oid ex_student_id) [] ex_student [])
    as (s' & res & e' & Hrun & Hc & _ & Hu & Hset & Hkeep & Hres).
  - reflexivity.
  - vm_compute. apply NoDup_singleton.
  - vm_compute. reflexivity.
  - reflexivity.
  - reflexivity.
  - exists s', e'. rewrite (Hres ltac:(vm_compute; discriminate)) in Hrun.
    split; [ exact Hrun | ]. split; [ exact Hc | ].
    split; [ apply Hset; [ discriminate | reflexivity ] | ].
    split; [ | exact Hu ].
    rewrite Hkeep; [ reflexivity | discriminate | reflexivity ].
Defined.

Lemma update_document_misses_witness :
  update_document 9%Z "student" "not-an-object-id" ∅ (Some (ex_store [] []))
  = (inl InvalidId, Some (ex_store [] [])) /\
  exists s',
    update_document 9%Z "student" "ffffffffffffffffffffffff" ∅
      (Some (ex_store [] []))
    = (inr false, Some s') /\
    coll_of s' "student" = [ex_student].
Proof.
  split.
  - apply (proj1 (update_document_misses 9%Z "student" "not-an-object-id" ∅
                    (ex_store [] []))).
    vm_compute. reflexivity.
  - destruct (proj2 (update_document_misses 9%Z "student"
                       "ffffffffffffffffffffffff" ∅ (ex_store [] []))
                (Oid "ffffffffffffffffffffffff"))
      as (s' & Hrun & Hsame).
    + vm_compute. reflexivity.
    + vm_compute. reflexivity.
    + exists s'. split; [ exact Hrun | ]. rewrite Hsame. reflexivity.
Defined.

Lemma get_documents_lists_witness :
  exists rs,
    get_documents "score" (Some [("type", VStr "tugas")]) 1
      (Some (ex_store ex_scores_partial []))
    = (inr rs, Some (ex_store ex_scores_partial [])) /\
    (List.length rs <= 1)%nat.
Proof.
  destruct (get_documents_lists "score" (Some [("type", VStr "tugas")]) 1
              (ex_store ex_scores_partial []))
    as (rs & Hrun & Hlen & _).
  exists rs. split; [ exact Hrun | apply Hlen; lia ].
Defined.

Lemma list_weights_ignores_class_scope_witness :
  exists rs,
    list_weights (Some ex_subject_id) None
      (Some (ex_store [] [ex_weight_zero; ex_weight_partial]))
    = (inr rs, Some (ex_store [] [ex_weight_zero; ex_weight_partial])) /\
    In (_to_str_id ex_weight_zero) rs.
Proof.
  apply (proj2 (list_weights_ignores_class_scope
                  (ex_store [] [ex_weight_zero; ex_weight_partial])
                  ex_subject_id None ex_weight_zero)).
  - discriminate.
  - vm_compute. auto.
  - vm_compute. reflexivity.
  - vm_compute. lia.
Defined.

Lemma ex_written_run p s :
  (set_weight 5%Z 6%Z ex_fresh_oid p (Some s)).1 = inr (ex_written p s).1 ->
  (set_weight 5%Z 6%Z ex_fresh_oid p (Some s)).2 = Some (ex_written p s).2 ->
  set_weight 5%Z 6%Z ex_fresh_oid p (Some s)
  = (inr (ex_written p s).1, Some (ex_written p s).2).
Proof.
  destruct (set_weight 5%Z 6%Z ex_fresh_oid p (Some s)) as [o d].
  simpl. intros -> ->. reflexivity.
Qed.

Lemma set_weight_then_resolve_witness :
  resolve_weight (wi_subject_id ex_payload) (opt_str (wi_class_name ex_payload))
    (Some (ex_written ex_payload (ex_store [] [ex_weight_zero])).2)
  = (inr (payload_weights ex_payload),
     Some (ex_written ex_payload (ex_store [] [ex_weight_zero])).2).
Proof.
  apply (set_weight_then_resolve 5%Z 6%Z ex_fresh_oid ex_payload
           (ex_store [] [ex_weight_zero])
           (ex_written ex_payload (ex_store [] [ex_weight_zero])).1).
  - vm_compute. apply NoDup_singleton.
  - apply ex_written_run; vm_compute; reflexivity.
Defined.

Lemma subject_wide_write_is_the_fallback_witness :
  resolve_weight (wi_subject_id ex_payload_wide) (VStr "IXB")
    (Some (ex_written ex_payload_wide (ex_store [] [ex_weight_zero])).2)
  = (inr (payload_weights ex_payload_wide),
     Some (ex_written ex_payload_wide (ex_store [] [ex_weight_zero])).2).
Proof.
  apply (subject_wide_write_is_the_fallback 5%Z 6%Z ex_fresh_oid ex_payload_wide
           (ex_store [] [ex_weight_zero])
           (ex_written ex_payload_wide (ex_store [] [ex_weight_zero])).1).
  - vm_compute. apply NoDup_singleton.
  - reflexivity.
  - vm_compute. reflexivity.
  - apply ex_written_run; vm_compute; reflexivity.
Defined.

Lemma set_weight_other_subject_witness :
  (resolve_weight ex_student_id (VStr "VIIA")
     (Some (ex_written ex_payload (ex_store [] [ex_weight_zero])).2)).1
  = (resolve_weight ex_student_id (VStr "VIIA")
       (Some (ex_store [] [ex_weight_zero]))).1.
Proof.
  apply (set_weight_other_subject 5%Z 6%Z ex_fresh_oid ex_payload
           (ex_store [] [ex_weight_zero])
           (ex_written ex_payload (ex_store [] [ex_weight_zero])).1).
  - vm_compute. apply NoDup_singleton.
  - discriminate.
  - apply ex_written_run; vm_compute; reflexivity.
Defined.

Lemma set_weight_timestamps_witness :
  (ex_written ex_payload (ex_store [] [])).1 !! "updated_at" = Some (VDate 5%Z).
Proof.
  apply (set_weight_timestamps 5%Z 6%Z ex_fresh_oid ex_payload (ex_store [] [])
           (ex_written ex_payload (ex_store [] [])).1
           (ex_written ex_payload (ex_store [] [])).2).
  - vm_compute. apply NoDup_nil_2.
  - apply ex_written_run; vm_compute; reflexivity.
Defined.

Lemma ex_added_run p s :
  (add_score 5%Z 6%Z ex_fresh_oid p (Some s)).1 = inr (ex_added p s).1 ->
  (add_score 5%Z 6%Z ex_fresh_oid p (Some s)).2 = Some (ex_added p s).2 ->
  add_score 5%Z 6%Z ex_fresh_oid p (Some s)
  = (inr (ex_added p s).1, Some (ex_added p s).2).
Proof.
  destruct (add_score 5%Z 6%Z ex_fresh_oid p (Some s)) as [o d].
  simpl. intros -> ->. reflexivity.
Qed.

Lemma generate_report_depends_on_witness :
  (generate_report no_float ex_student_id ex_subject_id
     (Some (ex_store ex_scores_partial []))).1
  = (generate_report no_float ex_student_id ex_subject_id
       (Some (ex_store (ex_scores_partial ++ [ex_score 4 "praktik" 10]) []))).1.
Proof.
  apply generate_report_depends_on; try reflexivity.
  intros t Ht. simpl in Ht.
  destruct Ht as [<- | [<- | [<- | [<- | []]]]]; vm_compute; reflexivity.
Defined.

Lemma add_score_elsewhere_witness :
  (generate_report no_float ex_student_id ex_subject_id
     (Some (ex_added ex_score_payload_other (ex_store ex_scores_partial [])).2)).1
  = (generate_report no_float ex_student_id ex_subject_id
       (Some (ex_store ex_scores_partial []))).1.
Proof.
  apply (add_score_elsewhere no_float 5%Z 6%Z ex_fresh_oid ex_score_payload_other
           (ex_store ex_scores_partial [])
           (ex_added ex_score_payload_other (ex_store ex_scores_partial [])).1).
  - apply ex_added_run; vm_compute; reflexivity.
  - right. right. simpl. intros [H | [H | [H | [H | []]]]]; discriminate.
Defined.


Lemma generate_report_no_internal_error_witness :
  (exists r,
     generate_report no_float ex_student_id ex_subject_id
       (Some (ex_store ex_scores_partial [ex_weight_zero]))
     = (inr r, Some (ex_store ex_scores_partial [ex_weight_zero]))) \/
  generate_report no_float ex_student_id ex_subject_id
    (Some (ex_store ex_scores_partial [ex_weight_zero]))
  = (inl (HTTPException 404 "Siswa atau mapel tidak ditemukan"),
     Some (ex_store ex_scores_partial [ex_weight_zero])) \/
  generate_report no_float ex_student_id ex_subject_id
    (Some (ex_store ex_scores_partial [ex_weight_zero]))
  = (inl (HTTPException 400 "Semua bobot 0"),
     Some (ex_store ex_scores_partial [ex_weight_zero])).
Proof.
  apply generate_report_no_internal_error. vm_compute. reflexivity.
Defined.

Lemma writers_keep_schema_witness :
  exists s',
    (add_score 5%Z 6%Z ex_fresh_oid ex_score_payload
       (Some (ex_store ex_scores_partial []))).2 = Some s' /\
    schema_ok s' = true.
Proof.
  apply (proj1 (proj2 (proj2
    (writers_keep_schema 5%Z 6%Z ex_fresh_oid (ex_store ex_scores_partial [])
       ltac:(vm_compute; reflexivity))))).
Defined.

Lemma add_score_keeps_range_witness :
  exists s',
    (add_score 5%Z 6%Z ex_fresh_oid ex_score_payload
       (Some (ex_store ex_scores_partial []))).2 = Some s' /\
    scores_in_range s' = true.
Proof.
  apply (add_score_keeps_range 5%Z 6%Z ex_fresh_oid ex_score_payload
           (ex_store ex_scores_partial [])).
  - vm_compute. reflexivity.
  - vm_compute. reflexivity.
Defined.


Lemma add_score_beyond_listing_witness :
  (list_scores None None None
     (Some (<["score" := (coll_of (ex_store ex_scores_many []) "score"
                          ++ [Document ex_fresh_oid
                                (stamped 6%Z (score_written 5%Z ex_score_payload))])%list]>
              (ex_store ex_scores_many [])))).1
  = (list_scores None None None (Some (ex_store ex_scores_many []))).1.
Proof.
  apply (add_score_beyond_listing 5%Z 6%Z ex_fresh_oid ex_score_payload
           (ex_store ex_scores_many [])
           (score_written 5%Z ex_score_payload
            ∪ {["id" := VStr (ObjectId_str ex_fresh_oid)]})).
  - apply Nat.leb_le. vm_compute. reflexivity.
  - rewrite add_score_run.
    assert (existsb (fun d => ObjectId_eqb (_id d) ex_fresh_oid)
              (coll_of (ex_store ex_scores_many []) "score") = false) as ->
      by (vm_compute; reflexivity).
    reflexivity.
Defined.
